(** * Doc-Parser: OCR region enhancement and picture annotation dispatch

    A shallow embedding of

    - [docling_serve/datamodel/convert.py] (annotation options and validators),
    - [docling_serve/picture_annotation/models.py] and [annotation_service.py],
    - [docling_serve/document_enhancement/ocr_enhancer.py],

    followed by the properties of the specification proved (or refuted) on it.

    Python values are modelled as follows: [int] is [Z]; [float] is the
    kernel's binary64 [float]; [str] is a list of Unicode code points;
    [Optional[T]] is [option T]; a callable of an external library (Pillow,
    the OpenAI client, the Surya predictors, [os.getenv]) is a field of a
    record of oracles, each returning either an exception or a value.  Every
    call that leaves the program is recorded in a trace of events. *)

From Stdlib Require Import ZArith NArith List String Ascii Floats Bool Lia.
From stdpp Require Import gmap list.

Set Warnings "-inexact-float".

Import ListNotations.
Local Open Scope Z_scope.

(** ** Python prelude *)

Module Py.

(** A [str] is a sequence of code points. *)
Abbreviation str := (list N).

(** UTF-8 decoding of the bytes of a source literal. *)
Fixpoint utf8_decode (bs : list N) : str :=
  match bs with
  | [] => []
  | b0 :: r0 =>
    if (b0 <? 0x80)%N then b0 :: utf8_decode r0
    else if (b0 <? 0xE0)%N then
      match r0 with
      | b1 :: r1 => ((b0 - 0xC0) * 0x40 + (b1 - 0x80))%N :: utf8_decode r1
      | _ => []
      end
    else if (b0 <? 0xF0)%N then
      match r0 with
      | b1 :: b2 :: r2 =>
        ((b0 - 0xE0) * 0x1000 + (b1 - 0x80) * 0x40 + (b2 - 0x80))%N
          :: utf8_decode r2
      | _ => []
      end
    else
      match r0 with
      | b1 :: b2 :: b3 :: r3 =>
        ((b0 - 0xF0) * 0x40000 + (b1 - 0x80) * 0x1000
         + (b2 - 0x80) * 0x40 + (b3 - 0x80))%N :: utf8_decode r3
      | _ => []
      end
  end.

(** The [str] denoted by a literal of the (UTF-8) source text. *)
Definition lit (s : string) : str :=
  utf8_decode (map N_of_ascii (list_ascii_of_string s)).

(** [str.isspace] on one code point (CPython's [_PyUnicode_IsWhitespace]). *)
Definition isspace (c : N) : bool :=
  ((0x09 <=? c) && (c <=? 0x0D) || (0x1C <=? c) && (c <=? 0x20)
   || (c =? 0x85) || (c =? 0xA0) || (c =? 0x1680)
   || (0x2000 <=? c) && (c <=? 0x200A)
   || (c =? 0x2028) || (c =? 0x2029) || (c =? 0x202F) || (c =? 0x205F)
   || (c =? 0x3000))%N.

Fixpoint lstrip (s : str) : str :=
  match s with
  | c :: r => if isspace c then lstrip r else s
  | [] => []
  end.

Definition rstrip (s : str) : str := rev (lstrip (rev s)).

(** [s.strip()] *)
Definition strip (s : str) : str := rstrip (lstrip s).

(** [sep.join(parts)] *)
Fixpoint join (sep : str) (parts : list str) : str :=
  match parts with
  | [] => []
  | [p] => p
  | p :: rest => p ++ sep ++ join sep rest
  end.

(** Truth value of a [str]: the empty string is falsy. *)
Definition truthy (s : str) : bool :=
  match s with [] => false | _ => true end.

(** Truth value of an [Optional[str]] ([not api_key] is its negation). *)
Definition truthy_opt (o : option str) : bool :=
  match o with Some s => truthy s | None => false end.

(** [x or d] for an [Optional[str]] *)
Definition or_else (o : option str) (d : str) : str :=
  if truthy_opt o then default d o else d.

(** [base64.b64encode(bs).decode("utf-8")] *)
Definition b64_alphabet : str :=
  lit "ABCDEFGHIJKLMNOPQRSTUVWXYZabcdefghijklmnopqrstuvwxyz0123456789+/".

Definition b64_digit (i : N) : N := nth (N.to_nat i) b64_alphabet 0%N.

Fixpoint b64encode (bs : list N) : str :=
  match bs with
  | [] => []
  | [a] =>
    [b64_digit (a / 4); b64_digit (a mod 4 * 16); 0x3D; 0x3D]%N
  | [a; b] =>
    [b64_digit (a / 4); b64_digit (a mod 4 * 16 + b / 16);
     b64_digit (b mod 16 * 4); 0x3D]%N
  | a :: b :: c :: rest =>
    [b64_digit (a / 4); b64_digit (a mod 4 * 16 + b / 16);
     b64_digit (b mod 16 * 4 + c / 64); b64_digit (c mod 64)]%N
      ++ b64encode rest
  end.

(** [s.startswith(p)] *)
Fixpoint startswith (s p : str) : bool :=
  match p, s with
  | [], _ => true
  | c :: p', d :: s' => (c =? d)%N && startswith s' p'
  | _ :: _, [] => false
  end.

(** [needle in s] *)
Fixpoint contains (s needle : str) : bool :=
  startswith s needle
  || match s with
     | [] => false
     | _ :: s' => contains s' needle
     end.

(** [o is not None] *)
Definition is_Some_b {A} (o : option A) : bool :=
  match o with Some _ => true | None => false end.

(** An exception object: its class name and its message ([str(e)]).  Every
    exception of the model is an instance of [Exception], which is what the
    handlers of the source catch. *)
Record exception := Exception { exc_type : string; exc_msg : str }.

Definition ValueError (msg : str) : exception := Exception "ValueError" msg.
Definition IndexError (msg : str) : exception := Exception "IndexError" msg.
Definition AttributeError (msg : str) : exception := Exception "AttributeError" msg.

(** [a == b] on strings *)
Fixpoint str_eqb (a b : str) : bool :=
  match a, b with
  | [], [] => true
  | c :: a', d :: b' => (c =? d)%N && str_eqb a' b'
  | _, _ => false
  end.

(** The outcome of a call: raised or returned. *)
Inductive outcome (A : Type) : Type :=
| Raise (e : exception)
| Return (a : A).
Arguments Raise {A} e.
Arguments Return {A} a.

(** What a computation leaves behind: the events it emitted to the outside
    world, the final state of the objects it may mutate, and how it ended.
    The state is kept when an exception is raised: Python does not roll an
    in-place mutation back. *)
Record execution (S E A : Type) : Type :=
  Run { trace : list E; final : S; result : outcome A }.
Arguments Run {S E A} trace final result.
Arguments trace {S E A} _.
Arguments final {S E A} _.
Arguments result {S E A} _.

Definition M (S E A : Type) : Type := S -> execution S E A.

Definition ret {S E A} (a : A) : M S E A := fun s => Run [] s (Return a).
Definition raise {S E A} (e : exception) : M S E A :=
  fun s => Run [] s (Raise e).

Definition bind {S E A B} (m : M S E A) (k : A -> M S E B) : M S E B :=
  fun s =>
    let '(Run t s' o) := m s in
    match o with
    | Raise e => Run t s' (Raise e)
    | Return a => let '(Run t' s'' o') := k a s' in Run (t ++ t') s'' o'
    end.

(** An external call: the event is emitted and the oracle's outcome is the
    outcome of the call. *)
Definition call {S E A} (ev : E) (o : outcome A) : M S E A :=
  fun s => Run [ev] s o.

(** The evaluation of an expression that emits nothing. *)
Definition eval {S E A} (o : outcome A) : M S E A := fun s => Run [] s o.

Definition get {S E} : M S E S := fun s => Run [] s (Return s).
Definition put {S E} (s : S) : M S E unit := fun _ => Run [] s (Return tt).

(** [try: m  except Exception as e: h e] *)
Definition try_except {S E A}
    (m : M S E A) (h : exception -> M S E A) : M S E A :=
  fun s =>
    let '(Run t s' o) := m s in
    match o with
    | Raise e => let '(Run t' s'' o') := h e s' in Run (t ++ t') s'' o'
    | Return a => Run t s' (Return a)
    end.

End Py.

Import Py.

Notation "'let*' x ':=' m 'in' k" := (bind m (fun x => k))
  (at level 10, x name, m at level 100, k at level 200,
   format "'[v' 'let*'  x  ':='  m  'in' '/' k ']'").
Notation "'run' m 'then' k" := (bind m (fun _ => k))
  (at level 10, m at level 100, k at level 200,
   format "'[v' 'run'  m  'then' '/' k ']'").

(** [for x in xs: body x] *)
Fixpoint for_each {S E A} (xs : list A) (body : A -> M S E unit) : M S E unit :=
  match xs with
  | [] => ret tt
  | x :: rest => run body x then for_each rest body
  end.

(** ** Pillow images, as far as the program looks at them *)

Module PIL.

(** An image: its size and its pixel buffer (opaque). *)
Record Image := { width : Z; height : Z; pixels : N }.

End PIL.

(** ** [docling_serve/datamodel/convert.py] *)

Module Convert.

(** A value of a [dict[str, Any]] option. *)
Inductive any :=
| AnyBool (b : bool)
| AnyInt (n : Z)
| AnyFloat (x : float)
| AnyStr (s : str).

Module PictureDescriptionLocal.
Record t := {
  repo_id : str;
  prompt : str;
  generation_config : gmap str any
}.
Definition default_prompt : str := lit "Describe this image in a few sentences.".
Definition default_generation_config : gmap str any :=
  <[lit "max_new_tokens" := AnyInt 200]> (<[lit "do_sample" := AnyBool false]> ∅).
End PictureDescriptionLocal.

Module PictureDescriptionApi.
Record t := {
  url : str;
  headers : gmap str str;
  params : gmap str any;
  timeout : float;
  prompt : str
}.
Definition default_timeout : float := 20%float.
Definition default_prompt : str := lit "Describe this image in a few sentences.".
End PictureDescriptionApi.

(** [class PictureAnnotationModelType(str, Enum)] *)
Inductive PictureAnnotationModelType := LOCAL | RUNPOD | OPENAI.

(** [a == b] on the members of the enum *)
Definition eqb (a b : PictureAnnotationModelType) : bool :=
  match a, b with
  | LOCAL, LOCAL | RUNPOD, RUNPOD | OPENAI, OPENAI => true
  | _, _ => false
  end.

(** [kind.value] *)
Definition value (k : PictureAnnotationModelType) : str :=
  match k with
  | LOCAL => lit "local"
  | RUNPOD => lit "runpod"
  | OPENAI => lit "openai"
  end.

(** [kind.name] *)
Definition name (k : PictureAnnotationModelType) : str :=
  match k with
  | LOCAL => lit "LOCAL"
  | RUNPOD => lit "RUNPOD"
  | OPENAI => lit "OPENAI"
  end.

(** The object the attribute [model_type] holds while the program runs.
    The declared type of the field, and the validation that pydantic runs
    when the options are constructed, admit the members of the enum only;
    an assignment to the attribute is not validated and can leave another
    object there, of which a plain [str] is modelled. *)
Inductive model_type_object :=
| Member (kind : PictureAnnotationModelType)
| Plain (s : str).

(** [obj == kind].  The enum mixes [str] in, so that a plain string equals
    the member whose value it is. *)
Definition equals (obj : model_type_object) (kind : PictureAnnotationModelType) : bool :=
  match obj with
  | Member k => eqb k kind
  | Plain s => str_eqb s (value kind)
  end.

(** [obj.value]: a plain [str] has no such attribute. *)
Definition value_of (obj : model_type_object) : outcome str :=
  match obj with
  | Member k => Return (value k)
  | Plain _ => Raise (AttributeError (lit "'str' object has no attribute 'value'"))
  end.

(** [f"{obj}"].  For a member this is [str(member)] (the text of older
    Python versions differs); no member reaches the only use of it. *)
Definition format (obj : model_type_object) : str :=
  match obj with
  | Member k => lit "PictureAnnotationModelType." ++ name k
  | Plain s => s
  end.

Module RunPodAnnotationConfig.
Record t := {
  api_key : str;
  worker_id : str;
  model : str;
  prompt : str;
  temperature : float
}.
Definition default_model : str := lit "Qwen/Qwen2.5-VL-3B-Instruct".
Definition default_prompt : str :=
  lit "اوصفلي الصورة دي وصف رياضي دقيق جداً جداً وخليك دقيق لاكتر درجه ممكنه".
Definition default_temperature : float := 0.6%float.
(** [RunPodAnnotationConfig(api_key=.., worker_id=.., model=..)]: the other
    fields take their defaults. *)
Definition new (api_key worker_id model : str) : t :=
  {| api_key := api_key; worker_id := worker_id; model := model;
     prompt := default_prompt; temperature := default_temperature |}.
End RunPodAnnotationConfig.

Module OpenAIAnnotationConfig.
Record t := {
  api_key : str;
  model : str;
  prompt : str;
  temperature : float
}.
Definition default_model : str := lit "gpt-4-vision-preview".
Definition default_prompt : str :=
  lit "Describe this image in detail with mathematical precision.".
Definition default_temperature : float := 0.6%float.
(** [OpenAIAnnotationConfig(api_key=..)] *)
Definition new (api_key : str) : t :=
  {| api_key := api_key; model := default_model;
     prompt := default_prompt; temperature := default_temperature |}.
End OpenAIAnnotationConfig.

Module PictureAnnotationOptions.
Record t := {
  model_type : PictureAnnotationModelType;
  runpod_config : option RunPodAnnotationConfig.t;
  openai_config : option OpenAIAnnotationConfig.t
}.

(** [@model_validator(mode="after") validate_model_config] *)
Definition validate_model_config (self : t) : outcome t :=
  if eqb (model_type self) RUNPOD && negb (is_Some_b (runpod_config self)) then
    Raise (ValueError (lit "runpod_config is required when model_type is 'runpod'"))
  else if eqb (model_type self) OPENAI && negb (is_Some_b (openai_config self)) then
    Raise (ValueError (lit "openai_config is required when model_type is 'openai'"))
  else Return self.

(** [PictureAnnotationOptions(model_type=.., runpod_config=..,
    openai_config=..)]; an omitted [model_type] is [LOCAL].  The fields are
    given as values of their types, so that only the validator can fail. *)
Definition new (model_type : option PictureAnnotationModelType)
    (runpod_config : option RunPodAnnotationConfig.t)
    (openai_config : option OpenAIAnnotationConfig.t) : outcome t :=
  validate_model_config
    {| model_type := default LOCAL model_type;
       runpod_config := runpod_config;
       openai_config := openai_config |}.
End PictureAnnotationOptions.

(** The fields [ConvertDocumentsOptions] adds for the enhancements; those
    of its base class (docling_jobkit) and those read from the server
    settings play no part in its validator and are left out. *)
Module ConvertDocumentsOptions.
Record t := {
  do_document_enhancement : bool;
  enable_character_encoding_fix : bool;
  picture_description_local : option PictureDescriptionLocal.t;
  picture_description_api : option PictureDescriptionApi.t;
  picture_annotation : option PictureAnnotationOptions.t
}.

(** [@model_validator(mode="after") picture_description_exclusivity] *)
Definition picture_description_exclusivity (self : t) : outcome t :=
  if is_Some_b (picture_description_local self)
     && is_Some_b (picture_description_api self)
  then
    Raise (ValueError (lit
      "The parameters picture_description_local and picture_description_api are mutually exclusive, only one of them can be set."))
  else Return self.

Definition new (do_document_enhancement enable_character_encoding_fix : bool)
    (picture_description_local : option PictureDescriptionLocal.t)
    (picture_description_api : option PictureDescriptionApi.t)
    (picture_annotation : option PictureAnnotationOptions.t) : outcome t :=
  picture_description_exclusivity
    {| do_document_enhancement := do_document_enhancement;
       enable_character_encoding_fix := enable_character_encoding_fix;
       picture_description_local := picture_description_local;
       picture_description_api := picture_description_api;
       picture_annotation := picture_annotation |}.
End ConvertDocumentsOptions.

End Convert.

(** ** [docling_serve/picture_annotation/models.py] *)

Module Models.

Module AnnotationResult.
Record t := {
  text : str;
  provenance : str;
  confidence : option float;
  error : option str
}.
(** [AnnotationResult(text=.., provenance=..)] *)
Definition new (text provenance : str) : t :=
  {| text := text; provenance := provenance;
     confidence := None; error := None |}.
(** [AnnotationResult(text=.., provenance=.., error=..)] *)
Definition new_error (text provenance error : str) : t :=
  {| text := text; provenance := provenance;
     confidence := None; error := Some error |}.
End AnnotationResult.

End Models.

(** ** [docling_serve/picture_annotation/annotation_service.py] *)

Module AnnotationService.

Import Convert Models.

(** The OpenAI client library, as far as the service uses it. *)
Inductive content_block :=
| ImageUrl (url detail : str)
| Text (text : str).

Record message := { role : str; content : list content_block }.

Record chat_request := {
  req_model : str;
  req_messages : list message;
  req_temperature : float
}.

Record choice := { message_content : option str }.
Record chat_completion := { choices : list choice }.

(** [OpenAI(base_url=.., api_key=..)]; [base_url = None] is the library's
    default endpoint. *)
Record OpenAI := { base_url : option str; client_api_key : str }.

(** The outside world of the service. *)
Record world := {
  (** [os.environ] *)
  environ : gmap str str;
  (** [image.save(buffered, format=fmt); buffered.getvalue()] *)
  image_save : PIL.Image -> str -> outcome (list N);
  (** the constructor of the client *)
  openai_init : OpenAI -> outcome unit;
  (** [client.chat.completions.create(..)] *)
  chat_completions_create : OpenAI -> chat_request -> outcome chat_completion
}.

Inductive event :=
| Getenv (name : str)
| LogError (msg : str)
| ImageSave (image : PIL.Image) (format : str)
| NewClient (client : OpenAI)
| ChatCompletionsCreate (client : OpenAI) (request : chat_request).

(** A call to a chat-completion backend. *)
Definition is_backend_call (ev : event) : bool :=
  match ev with ChatCompletionsCreate _ _ => true | _ => false end.

Definition backend_call_count (t : list event) : nat :=
  length (filter (fun ev => is_backend_call ev = true) t).

(** [self]: the only attribute is [options], which [_validate_configuration]
    assigns to. *)
Record PictureAnnotationService := { options : PictureAnnotationOptions.t }.

Abbreviation Svc := (M PictureAnnotationService event).

Section Service.

Variable w : world.

(** [os.getenv(name)] *)
Definition getenv (name : str) : Svc (option str) :=
  call (Getenv name) (Return (environ w !! name)).

(** [os.getenv(name, default)] *)
Definition getenv_default (name dflt : str) : Svc str :=
  call (Getenv name) (Return (default dflt (environ w !! name))).

Definition set_runpod_config (c : RunPodAnnotationConfig.t) : Svc unit :=
  let* self := get in
  let o := options self in
  put {| options :=
           {| PictureAnnotationOptions.model_type := PictureAnnotationOptions.model_type o;
              PictureAnnotationOptions.runpod_config := Some c;
              PictureAnnotationOptions.openai_config := PictureAnnotationOptions.openai_config o |} |}.

Definition set_openai_config (c : OpenAIAnnotationConfig.t) : Svc unit :=
  let* self := get in
  let o := options self in
  put {| options :=
           {| PictureAnnotationOptions.model_type := PictureAnnotationOptions.model_type o;
              PictureAnnotationOptions.runpod_config := PictureAnnotationOptions.runpod_config o;
              PictureAnnotationOptions.openai_config := Some c |} |}.

Definition _validate_configuration : Svc unit :=
  let* self := get in
  if eqb (PictureAnnotationOptions.model_type (options self)) RUNPOD then
    if negb (is_Some_b (PictureAnnotationOptions.runpod_config (options self))) then
      let* api_key := getenv (lit "RUNPOD_API_KEY") in
      let* worker_id := getenv (lit "RUNPOD_WORKER") in
      let* model := getenv_default (lit "RUNPOD_MODEL") (lit "Qwen/Qwen2.5-VL-3B-Instruct") in
      if negb (truthy_opt api_key) || negb (truthy_opt worker_id) then
        raise (ValueError (lit
          "RunPod configuration missing. Either provide runpod_config or set RUNPOD_API_KEY and RUNPOD_WORKER environment variables."))
      else
        set_runpod_config
          (RunPodAnnotationConfig.new (default [] api_key) (default [] worker_id) model)
    else ret tt
  else if eqb (PictureAnnotationOptions.model_type (options self)) OPENAI then
    if negb (is_Some_b (PictureAnnotationOptions.openai_config (options self))) then
      let* api_key := getenv (lit "OPENAI_API_KEY") in
      if negb (truthy_opt api_key) then
        raise (ValueError (lit
          "OpenAI configuration missing. Either provide openai_config or set OPENAI_API_KEY environment variable."))
      else
        set_openai_config (OpenAIAnnotationConfig.new (default [] api_key))
    else ret tt
  else ret tt.

(** [PictureAnnotationService(options)]: the trace of the construction and
    either the exception it raised or the service built. *)
Definition __init__ (opts : option PictureAnnotationOptions.t)
  : list event * outcome PictureAnnotationService :=
  (* self.options = options or PictureAnnotationOptions() *)
  match match opts with
        | Some o => Return o
        | None => PictureAnnotationOptions.new None None None
        end
  with
  | Raise e => ([], Raise e)
  | Return o =>
    let '(Run t self o') := _validate_configuration {| options := o |} in
    (t, match o' with Raise e => Raise e | Return _ => Return self end)
  end.

Definition _annotate_with_local_model (image : PIL.Image)
  : Svc AnnotationResult.t :=
  ret (AnnotationResult.new (lit "Local model annotation placeholder") (lit "local_model")).

(** [response.choices[0].message.content] *)
Definition first_choice_content (response : chat_completion)
  : Svc (option str) :=
  match choices response with
  | c :: _ => ret (message_content c)
  | [] => raise (IndexError (lit "list index out of range"))
  end.

(** The single-turn request both API backends send. *)
Definition user_message (img_str detail prompt : str) : list message :=
  [ {| role := lit "user";
       content := [ ImageUrl (lit "data:image/png;base64," ++ img_str) detail;
                    Text prompt ] |} ].

Definition _annotate_with_runpod (image : PIL.Image) : Svc AnnotationResult.t :=
  let* self := get in
  match PictureAnnotationOptions.runpod_config (options self) with
  | None => raise (ValueError (lit "RunPod configuration not available"))
  | Some config =>
    let* buffered := call (ImageSave image (lit "PNG")) (image_save w image (lit "PNG")) in
    let img_str := b64encode buffered in
    let base_url := lit "https://api.runpod.ai/v2/"
                    ++ RunPodAnnotationConfig.worker_id config ++ lit "/openai/v1" in
    let client := {| base_url := Some base_url;
                     client_api_key := RunPodAnnotationConfig.api_key config |} in
    run call (NewClient client) (openai_init w client) then
    let request :=
      {| req_model := RunPodAnnotationConfig.model config;
         req_messages := user_message img_str (lit "low") (RunPodAnnotationConfig.prompt config);
         req_temperature := RunPodAnnotationConfig.temperature config |} in
    let* response := call (ChatCompletionsCreate client request)
                          (chat_completions_create w client request) in
    let* content := first_choice_content response in
    ret (AnnotationResult.new (or_else content [])
           (lit "runpod:" ++ RunPodAnnotationConfig.model config))
  end.

Definition _annotate_with_openai (image : PIL.Image) : Svc AnnotationResult.t :=
  let* self := get in
  match PictureAnnotationOptions.openai_config (options self) with
  | None => raise (ValueError (lit "OpenAI configuration not available"))
  | Some config =>
    let* buffered := call (ImageSave image (lit "PNG")) (image_save w image (lit "PNG")) in
    let img_str := b64encode buffered in
    let client := {| base_url := None;
                     client_api_key := OpenAIAnnotationConfig.api_key config |} in
    run call (NewClient client) (openai_init w client) then
    let request :=
      {| req_model := OpenAIAnnotationConfig.model config;
         req_messages := user_message img_str (lit "high") (OpenAIAnnotationConfig.prompt config);
         req_temperature := OpenAIAnnotationConfig.temperature config |} in
    let* response := call (ChatCompletionsCreate client request)
                          (chat_completions_create w client request) in
    let* content := first_choice_content response in
    ret (AnnotationResult.new (or_else content [])
           (lit "openai:" ++ OpenAIAnnotationConfig.model config))
  end.

(** The body of the [try] of [annotate_image], [kind] being the object
    that [self.options.model_type] holds. *)
Definition dispatch_on (kind : model_type_object) (image : PIL.Image)
  : Svc AnnotationResult.t :=
  if equals kind LOCAL then _annotate_with_local_model image
  else if equals kind RUNPOD then _annotate_with_runpod image
  else if equals kind OPENAI then _annotate_with_openai image
  else raise (ValueError (lit "Unsupported model type: " ++ format kind)).

(** [annotate_image], [kind] being the object that
    [self.options.model_type] holds.  The handler reads [kind.value]: when
    that fails, the exception leaves [annotate_image]. *)
Definition annotate_image_on (kind : model_type_object) (image : PIL.Image)
  : Svc AnnotationResult.t :=
  try_except (dispatch_on kind image)
    (fun e =>
       run call (LogError (lit "Error during image annotation: " ++ exc_msg e)) (Return tt) then
       let* provenance := eval (value_of kind) in
       ret (AnnotationResult.new_error [] provenance (exc_msg e))).

(** The same on options of the declared type, whose [model_type] is a
    member of the enum. *)
Definition dispatch (image : PIL.Image) : Svc AnnotationResult.t :=
  fun self =>
    dispatch_on (Member (PictureAnnotationOptions.model_type (options self))) image self.

Definition annotate_image (image : PIL.Image) : Svc AnnotationResult.t :=
  fun self =>
    annotate_image_on (Member (PictureAnnotationOptions.model_type (options self)))
      image self.

End Service.

End AnnotationService.

(** ** [docling_serve/document_enhancement/ocr_enhancer.py] *)

Module OcrEnhancer.

(** What the Surya predictors return, as far as the enhancer reads it. *)
Record TextLine := { text : str; confidence : float }.
Record OCRResult := { text_lines : list TextLine }.

Module SuryaCell.
Record t := { row_id : Z; col_id : Z; bbox : list float }.
End SuryaCell.

Record TableResult := { cells : list SuryaCell.t }.

(** A rectangle in the native coordinates of the page. *)
Record BoundingBox := { l : float; t : float; r : float; b : float }.

(** A cell of the table of the document. *)
Module TableCell.
Record t := {
  start_row_offset_idx : Z;
  start_col_offset_idx : Z;
  bbox : BoundingBox;
  text : str
}.
Definition set_bbox (cell : t) (bb : BoundingBox) : t :=
  {| start_row_offset_idx := start_row_offset_idx cell;
     start_col_offset_idx := start_col_offset_idx cell;
     bbox := bb;
     text := text cell |}.
End TableCell.

Abbreviation box := (Z * Z * Z * Z)%type.

(** The outside world of the enhancer: Pillow, the Surya predictors and
    the geometric transform of [bbox_utils]. *)
Record world := {
  (** whether [import surya] succeeded when the module was loaded *)
  SURYA_AVAILABLE : bool;
  (** the constructors of the three predictors *)
  RecognitionPredictor : outcome unit;
  DetectionPredictor : outcome unit;
  TableRecPredictor : outcome unit;
  (** [image.crop(box)] *)
  crop : PIL.Image -> box -> outcome PIL.Image;
  (** [Image.new(mode, size, color)] *)
  new : str -> Z * Z -> Z * Z * Z -> outcome PIL.Image;
  (** [background.paste(im, pos)]: the background afterwards *)
  paste : PIL.Image -> PIL.Image -> Z * Z -> outcome PIL.Image;
  (** [self.recognition_predictor(images, det_predictor=..,
      math_mode=True, task_names=['ocr_with_boxes'])] *)
  recognition_predictor : list PIL.Image -> outcome (list OCRResult);
  (** [self.table_rec_predictor(images)] *)
  table_rec_predictor : list PIL.Image -> outcome (list TableResult);
  (** [from .bbox_utils import BoundingBoxConverter] *)
  import_bbox_utils : outcome unit;
  (** the transform from model space to native page space *)
  to_native_bbox :
    TableCell.t -> SuryaCell.t -> box -> Z * Z -> float -> float -> outcome BoundingBox
}.

Inductive event :=
| LogWarning (msg : str)
| LogError (msg : str)
| NewPredictor (name : string)
| Crop (image : PIL.Image) (box : box)
| New (mode : str) (size : Z * Z) (color : Z * Z * Z)
| Paste (background im : PIL.Image) (pos : Z * Z)
| Recognize (images : list PIL.Image) (math_mode : bool) (task_names : list str)
| TableRec (images : list PIL.Image)
| ImportBboxUtils
| UpdateCellBbox (index : nat) (surya_cell : SuryaCell.t).

(** [self] *)
Record OCREnhancer := { _models_loaded : bool }.

Section Enhancer.

Variable w : world.

(** [OCREnhancer()] *)
Definition __init__ : list event * OCREnhancer :=
  if SURYA_AVAILABLE w then
    let '(Run t _ o) :=
      try_except (S := unit)
        (run call (NewPredictor "RecognitionPredictor") (RecognitionPredictor w) then
         run call (NewPredictor "DetectionPredictor") (DetectionPredictor w) then
         run call (NewPredictor "TableRecPredictor") (TableRecPredictor w) then
         ret true)
        (fun e =>
           run call (LogError (lit "Failed to load Surya models: " ++ exc_msg e)) (Return tt) then
           ret false)
        tt in
    (t, {| _models_loaded := match o with Return v => v | Raise _ => false end |})
  else ([], {| _models_loaded := false |}).

(** The crop rectangle: the region padded by [thr] and cut at the image. *)
Definition thr : Z := 2.

Definition crop_box (image : PIL.Image) (bbox : box) : box :=
  let '(x1, y1, x2, y2) := bbox in
  let left := Z.max (x1 - thr) 0 in
  let top := Z.max (y1 - thr) 0 in
  let right := Z.min (x2 + thr) (PIL.width image) in
  let bottom := Z.min (y2 + thr) (PIL.height image) in
  (left, top, right, bottom).

Definition scale_w : Z := 3.
Definition scale_h : Z := 3.

(** The [for] loop that collects the high-confidence lines, the list
    [lines] being its state. *)
Definition collect_lines (text_lines : list TextLine) : list str :=
  fold_left
    (fun lines line =>
       if (0.5 <? confidence line)%float then lines ++ [text line] else lines)
    text_lines [].

(** The lines of the first prediction, if there is one: what the loop of
    [extract_text_from_region] runs over. *)
Definition lines_of (predictions : list OCRResult) : list TextLine :=
  match predictions with
  | p :: _ => text_lines p
  | [] => []
  end.

(** The body of the [try] of [extract_text_from_region]. *)
Definition extract_body (image : PIL.Image) (bbox : box) (old_text : str)
  : M unit event str :=
  let* cropped := call (Crop image (crop_box image bbox)) (crop w image (crop_box image bbox)) in
  let bg_w := PIL.width cropped * scale_w in
  let bg_h := PIL.height cropped * scale_h in
  let white := (255, 255, 255) in
  let* background := call (New (lit "RGB") (bg_w, bg_h) white)
                          (new w (lit "RGB") (bg_w, bg_h) white) in
  let paste_x := (bg_w - PIL.width cropped) / 2 in
  let paste_y := (bg_h - PIL.height cropped) / 2 in
  let* background := call (Paste background cropped (paste_x, paste_y))
                          (paste w background cropped (paste_x, paste_y)) in
  let* predictions := call (Recognize [background] true [lit "ocr_with_boxes"])
                           (recognition_predictor w [background]) in
  let lines :=
    match predictions with
    | p :: _ => collect_lines (text_lines p)
    | [] => []
    end in
  let enhanced_text := strip (join (lit " ") lines) in
  ret (if truthy enhanced_text then enhanced_text else old_text).

Definition extract_text_from_region (self : OCREnhancer)
    (image : PIL.Image) (bbox : box) (old_text : str) : M unit event str :=
  if negb (_models_loaded self) then
    run call (LogWarning (lit "OCR models not available, returning original text")) (Return tt) then
    ret old_text
  else
    try_except (extract_body image bbox old_text)
      (fun e =>
         run call (LogError (lit "Error in OCR enhancement: " ++ exc_msg e)) (Return tt) then
         ret old_text).

(** [{(cell.row_id, cell.col_id): cell for cell in surya_table.cells}]: a
    later cell with the same key replaces an earlier one. *)
Definition surya_cell_dict (cells : list SuryaCell.t) : gmap (Z * Z) SuryaCell.t :=
  fold_left
    (fun d cell => <[(SuryaCell.row_id cell, SuryaCell.col_id cell) := cell]> d)
    cells ∅.

(** Modelled from the spec: [BoundingBoxConverter.update_cell_bbox] of
    [bbox_utils.py], which is not among the sources.  The specification
    asks for a pure geometric transform that rewrites the bbox of the cell
    it is given; the transform itself is the oracle [to_native_bbox], and a
    failure of it leaves the cell as it was.  The cell is the [index]-th
    object of [table_item.data.table_cells], the state of the computation. *)
Definition update_cell_bbox (index : nat) (surya_cell : SuryaCell.t)
    (table_bbox : box) (page_dim : Z * Z) (pdf_w pdf_h : float)
  : M (list TableCell.t) event unit :=
  let* table_cells := get in
  match table_cells !! index with
  | None => ret tt
  | Some cell =>
    let* bb := call (UpdateCellBbox index surya_cell)
                    (to_native_bbox w cell surya_cell table_bbox page_dim pdf_w pdf_h) in
    put (<[index := TableCell.set_bbox cell bb]> table_cells)
  end.

(** One turn of the [for] loop over [table_item.data.table_cells]. *)
Definition enhance_cell (d : gmap (Z * Z) SuryaCell.t)
    (table_bbox : box) (page_dim : Z * Z) (pdf_w pdf_h : float) (index : nat)
  : M (list TableCell.t) event unit :=
  let* table_cells := get in
  match table_cells !! index with
  | None => ret tt
  | Some cell =>
    let row := TableCell.start_row_offset_idx cell in
    let col := TableCell.start_col_offset_idx cell in
    match d !! (row, col) with
    | Some surya_cell =>
      update_cell_bbox index surya_cell table_bbox page_dim pdf_w pdf_h
    | None => ret tt
    end
  end.

(** The body of the [try] of [enhance_table_structure]. *)
Definition enhance_body (table_image : PIL.Image) (page_dim : Z * Z)
    (table_bbox : box) (pdf_w pdf_h : float) : M (list TableCell.t) event unit :=
  run call ImportBboxUtils (import_bbox_utils w) then
  let* table_predictions := call (TableRec [table_image]) (table_rec_predictor w [table_image]) in
  match table_predictions with
  | [] => ret tt
  | surya_table :: _ =>
    let d := surya_cell_dict (cells surya_table) in
    let* table_cells := get in
    for_each (seq 0 (length table_cells))
      (enhance_cell d table_bbox page_dim pdf_w pdf_h)
  end.

(** [enhance_table_structure]; the state is the list of cells of
    [table_item], mutated in place. *)
Definition enhance_table_structure (self : OCREnhancer)
    (table_image : PIL.Image) (page_dim : Z * Z)
    (table_bbox : box) (pdf_w pdf_h : float) : M (list TableCell.t) event unit :=
  if negb (_models_loaded self) then
    call (LogWarning (lit "Table recognition models not available")) (Return tt)
  else
    try_except (enhance_body table_image page_dim table_bbox pdf_w pdf_h)
      (fun e =>
         call (LogError (lit "Error in table structure enhancement: " ++ exc_msg e)) (Return tt)).

(** The key under which the loop looks a cell up. *)
Definition cell_key (cell : TableCell.t) : Z * Z :=
  (TableCell.start_row_offset_idx cell, TableCell.start_col_offset_idx cell).

(** What a turn of the loop that does not raise makes of its cell. *)
Definition refined (d : gmap (Z * Z) SuryaCell.t)
    (table_bbox : box) (page_dim : Z * Z) (pdf_w pdf_h : float)
    (cell : TableCell.t) : TableCell.t :=
  match d !! cell_key cell with
  | Some surya_cell =>
    match to_native_bbox w cell surya_cell table_bbox page_dim pdf_w pdf_h with
    | Return bb => TableCell.set_bbox cell bb
    | Raise _ => cell
    end
  | None => cell
  end.

(** Whether the turn of the loop on this cell raises. *)
Definition conversion_fails (d : gmap (Z * Z) SuryaCell.t)
    (table_bbox : box) (page_dim : Z * Z) (pdf_w pdf_h : float)
    (cell : TableCell.t) : bool :=
  match d !! cell_key cell with
  | Some surya_cell =>
    match to_native_bbox w cell surya_cell table_bbox page_dim pdf_w pdf_h with
    | Return _ => false
    | Raise _ => true
    end
  | None => false
  end.

End Enhancer.

End OcrEnhancer.

(** ** Stand-ins for the external libraries, for the concrete runs *)

Module Fixtures.

Import Convert Models.

(** Pillow: sizes as the library computes them; a box whose right edge is
    left of its left edge (or bottom above top) is refused, as recent
    versions do. *)
Definition pillow_crop (image : PIL.Image) (bx : Z * Z * Z * Z) : outcome PIL.Image :=
  let '(lft, upper, rgt, lower) := bx in
  if rgt <? lft then
    Raise (ValueError (lit "Coordinate 'right' is less than 'left'"))
  else if lower <? upper then
    Raise (ValueError (lit "Coordinate 'lower' is less than 'upper'"))
  else
    Return {| PIL.width := rgt - lft; PIL.height := lower - upper;
              PIL.pixels := PIL.pixels image |}.

Definition pillow_new (mode : str) (size : Z * Z) (color : Z * Z * Z)
  : outcome PIL.Image :=
  let '(width, height) := size in
  if (width <? 0) || (height <? 0) then
    Raise (ValueError (lit "Width and height must be >= 0"))
  else Return {| PIL.width := width; PIL.height := height; PIL.pixels := 0 |}.

Definition pillow_paste (background im : PIL.Image) (pos : Z * Z)
  : outcome PIL.Image :=
  Return {| PIL.width := PIL.width background;
            PIL.height := PIL.height background;
            PIL.pixels := PIL.pixels im |}.

(** A transform that scales the model's box to the page and refuses a box
    that does not have four coordinates. *)
Definition scale_bbox (cell : OcrEnhancer.TableCell.t) (sc : OcrEnhancer.SuryaCell.t)
    (table_bbox : Z * Z * Z * Z) (page_dim : Z * Z) (pdf_w pdf_h : float)
  : outcome OcrEnhancer.BoundingBox :=
  match OcrEnhancer.SuryaCell.bbox sc with
  | [x1; y1; x2; y2] =>
    Return {| OcrEnhancer.l := (x1 * pdf_w)%float; OcrEnhancer.t := (y1 * pdf_h)%float;
              OcrEnhancer.r := (x2 * pdf_w)%float; OcrEnhancer.b := (y2 * pdf_h)%float |}
  | _ => Raise (ValueError (lit "not enough values to unpack (expected 4)"))
  end.

(** An enhancer world with Surya installed, given what the recognition and
    the table predictors answer. *)
Definition surya (ocr : outcome (list OcrEnhancer.OCRResult))
    (tables : outcome (list OcrEnhancer.TableResult)) : OcrEnhancer.world :=
  {| OcrEnhancer.SURYA_AVAILABLE := true;
     OcrEnhancer.RecognitionPredictor := Return tt;
     OcrEnhancer.DetectionPredictor := Return tt;
     OcrEnhancer.TableRecPredictor := Return tt;
     OcrEnhancer.crop := pillow_crop;
     OcrEnhancer.new := pillow_new;
     OcrEnhancer.paste := pillow_paste;
     OcrEnhancer.recognition_predictor := fun _ => ocr;
     OcrEnhancer.table_rec_predictor := fun _ => tables;
     OcrEnhancer.import_bbox_utils := Return tt;
     OcrEnhancer.to_native_bbox := scale_bbox |}.

Definition loaded : OcrEnhancer.OCREnhancer := {| OcrEnhancer._models_loaded := true |}.

Definition image_100x100 : PIL.Image :=
  {| PIL.width := 100; PIL.height := 100; PIL.pixels := 7 |}.

(** Scenario C of the specification. *)
Definition hello_xx : list OcrEnhancer.OCRResult :=
  [ {| OcrEnhancer.text_lines :=
         [ {| OcrEnhancer.text := lit "Hello"; OcrEnhancer.confidence := 0.9 |};
           {| OcrEnhancer.text := lit "xx"; OcrEnhancer.confidence := 0.3 |} ] |} ].

(** Two lines the recognizer is not confident about. *)
Definition faint_lines : list OcrEnhancer.OCRResult :=
  [ {| OcrEnhancer.text_lines :=
         [ {| OcrEnhancer.text := lit "l1"; OcrEnhancer.confidence := 0.5 |};
           {| OcrEnhancer.text := lit "O0"; OcrEnhancer.confidence := 0.3 |} ] |} ].

(** Three lines with whitespace around the text; the recognizer is
    confident about the first and the last. *)
Definition padded_lines : list OcrEnhancer.OCRResult :=
  [ {| OcrEnhancer.text_lines :=
         [ {| OcrEnhancer.text := lit "  Hello"; OcrEnhancer.confidence := 0.9 |};
           {| OcrEnhancer.text := lit "xx"; OcrEnhancer.confidence := 0.3 |};
           {| OcrEnhancer.text := lit "wide world " ++ [0x0A]%N;
              OcrEnhancer.confidence := 0.8 |} ] |} ].

(** Two lines of whitespace only (space and tab; a no-break space), both
    above the threshold. *)
Definition blank_lines : list OcrEnhancer.OCRResult :=
  [ {| OcrEnhancer.text_lines :=
         [ {| OcrEnhancer.text := [0x20; 0x09]%N; OcrEnhancer.confidence := 0.9 |};
           {| OcrEnhancer.text := [0xA0]%N; OcrEnhancer.confidence := 0.7 |} ] |} ].

(** A table of two cells, and a model output whose second cell has a
    malformed box. *)
Definition unit_box : OcrEnhancer.BoundingBox :=
  {| OcrEnhancer.l := 0; OcrEnhancer.t := 0; OcrEnhancer.r := 1; OcrEnhancer.b := 1 |}.

Definition two_cells : list OcrEnhancer.TableCell.t :=
  [ {| OcrEnhancer.TableCell.start_row_offset_idx := 0;
       OcrEnhancer.TableCell.start_col_offset_idx := 0;
       OcrEnhancer.TableCell.bbox := unit_box;
       OcrEnhancer.TableCell.text := lit "name" |};
    {| OcrEnhancer.TableCell.start_row_offset_idx := 0;
       OcrEnhancer.TableCell.start_col_offset_idx := 1;
       OcrEnhancer.TableCell.bbox := unit_box;
       OcrEnhancer.TableCell.text := lit "value" |} ].

Definition second_box_malformed : list OcrEnhancer.TableResult :=
  [ {| OcrEnhancer.cells :=
         [ {| OcrEnhancer.SuryaCell.row_id := 0; OcrEnhancer.SuryaCell.col_id := 0;
              OcrEnhancer.SuryaCell.bbox := [0.25; 0.25; 0.5; 0.5]%float |};
           {| OcrEnhancer.SuryaCell.row_id := 0; OcrEnhancer.SuryaCell.col_id := 1;
              OcrEnhancer.SuryaCell.bbox := [] |} ] |} ].

(** The cells of the first table of a model output. *)
Definition cells_of (tables : list OcrEnhancer.TableResult) : list OcrEnhancer.SuryaCell.t :=
  match tables with
  | table :: _ => OcrEnhancer.cells table
  | [] => []
  end.

(** A model output that knows the first cell only. *)
Definition first_cell_only : list OcrEnhancer.TableResult :=
  [ {| OcrEnhancer.cells :=
         [ {| OcrEnhancer.SuryaCell.row_id := 0; OcrEnhancer.SuryaCell.col_id := 0;
              OcrEnhancer.SuryaCell.bbox := [0.25; 0.25; 0.5; 0.5]%float |} ] |} ].

(** An annotation world: the environment and what the backend answers. *)
Definition backend (env : gmap str str)
    (answer : outcome AnnotationService.chat_completion) : AnnotationService.world :=
  {| AnnotationService.environ := env;
     AnnotationService.image_save := fun _ _ => Return [0x89; 0x50; 0x4E; 0x47]%N;
     AnnotationService.openai_init := fun _ => Return tt;
     AnnotationService.chat_completions_create := fun _ _ => answer |}.

Definition says (s : str) : outcome AnnotationService.chat_completion :=
  Return {| AnnotationService.choices :=
              [ {| AnnotationService.message_content := Some s |} ] |}.

Definition openai_options : PictureAnnotationOptions.t :=
  {| PictureAnnotationOptions.model_type := OPENAI;
     PictureAnnotationOptions.runpod_config := None;
     PictureAnnotationOptions.openai_config :=
       Some (OpenAIAnnotationConfig.new (lit "sk-test")) |}.

Definition runpod_options : PictureAnnotationOptions.t :=
  {| PictureAnnotationOptions.model_type := RUNPOD;
     PictureAnnotationOptions.runpod_config :=
       Some (RunPodAnnotationConfig.new (lit "rp-key") (lit "w123")
               RunPodAnnotationConfig.default_model);
     PictureAnnotationOptions.openai_config := None |}.

(** Options of kind RunPod (resp. OpenAI) without the configuration of
    that backend, as left by an assignment to [model_type]. *)
Definition runpod_unconfigured : PictureAnnotationOptions.t :=
  {| PictureAnnotationOptions.model_type := RUNPOD;
     PictureAnnotationOptions.runpod_config := None;
     PictureAnnotationOptions.openai_config := None |}.

Definition openai_unconfigured : PictureAnnotationOptions.t :=
  {| PictureAnnotationOptions.model_type := OPENAI;
     PictureAnnotationOptions.runpod_config := None;
     PictureAnnotationOptions.openai_config := None |}.

Definition runpod_env : gmap str str :=
  <[lit "RUNPOD_API_KEY" := lit "rp-key"]> (<[lit "RUNPOD_WORKER" := lit "w123"]> ∅).

(** Options that carry the configurations of both API backends. *)
Definition both_configs : PictureAnnotationOptions.t :=
  {| PictureAnnotationOptions.model_type := RUNPOD;
     PictureAnnotationOptions.runpod_config :=
       Some (RunPodAnnotationConfig.new (lit "rp-key") (lit "w123")
               RunPodAnnotationConfig.default_model);
     PictureAnnotationOptions.openai_config :=
       Some (OpenAIAnnotationConfig.new (lit "sk-test")) |}.

Definition local_description : PictureDescriptionLocal.t :=
  {| PictureDescriptionLocal.repo_id := lit "HuggingFaceTB/SmolVLM-256M-Instruct";
     PictureDescriptionLocal.prompt := PictureDescriptionLocal.default_prompt;
     PictureDescriptionLocal.generation_config :=
       PictureDescriptionLocal.default_generation_config |}.

Definition api_description : PictureDescriptionApi.t :=
  {| PictureDescriptionApi.url := lit "http://localhost:11434/v1/chat/completions";
     PictureDescriptionApi.headers := ∅;
     PictureDescriptionApi.params := ∅;
     PictureDescriptionApi.timeout := PictureDescriptionApi.default_timeout;
     PictureDescriptionApi.prompt := PictureDescriptionApi.default_prompt |}.

End Fixtures.

(** ** The merged text, in the words of the specification *)

Module TextSpec.

(** The texts with exactly one space between two that follow each other. *)
Definition single_spaced (texts : list str) : str :=
  match texts with
  | [] => []
  | first :: others => first ++ flat_map (fun t => 0x20%N :: t) others
  end.

(** The code points that count as whitespace for [str.strip]. *)
Definition whitespace : list N :=
  [0x09; 0x0A; 0x0B; 0x0C; 0x0D; 0x1C; 0x1D; 0x1E; 0x1F; 0x20; 0x85; 0xA0;
   0x1680; 0x2000; 0x2001; 0x2002; 0x2003; 0x2004; 0x2005; 0x2006; 0x2007;
   0x2008; 0x2009; 0x200A; 0x2028; 0x2029; 0x202F; 0x205F; 0x3000]%N.

(** [s] is [raw] without its leading and its trailing whitespace: only
    whitespace was dropped, on both sides, and none is left at either end. *)
Definition trimmed (raw s : str) : Prop :=
  exists before after,
    raw = before ++ s ++ after /\
    Forall (fun c => In c whitespace) before /\
    Forall (fun c => In c whitespace) after /\
    (forall c rest, s = c :: rest -> ~ In c whitespace) /\
    (forall front c, s = front ++ [c] -> ~ In c whitespace).

End TextSpec.

(** ** What a trace shows, and worlds in which a call fails *)

Module AnnotationObservations.

Import Convert AnnotationService.

(** Whether the options carry the configuration of their kind. *)
Definition config_present (o : PictureAnnotationOptions.t) : bool :=
  match PictureAnnotationOptions.model_type o with
  | LOCAL => true
  | RUNPOD => is_Some_b (PictureAnnotationOptions.runpod_config o)
  | OPENAI => is_Some_b (PictureAnnotationOptions.openai_config o)
  end.

End AnnotationObservations.

Module OcrObservations.

Import OcrEnhancer.

Definition is_recognize (ev : event) : bool :=
  match ev with Recognize _ _ _ => true | _ => false end.

Definition is_table_rec (ev : event) : bool :=
  match ev with TableRec _ => true | _ => false end.

End OcrObservations.

Module FailureFixtures.

Import Convert Fixtures.

(** A world in which the image cannot be encoded. *)
Definition broken_encoder : AnnotationService.world :=
  {| AnnotationService.environ := ∅;
     AnnotationService.image_save :=
       fun _ _ => Raise (Exception "OSError" (lit "cannot write mode P as PNG"));
     AnnotationService.openai_init := fun _ => Return tt;
     AnnotationService.chat_completions_create :=
       fun _ _ => Return {| AnnotationService.choices := [] |} |}.

(** A backend that answers with no choice at all. *)
Definition no_choice : outcome AnnotationService.chat_completion :=
  Return {| AnnotationService.choices := [] |}.

(** A machine without Surya. *)
Definition no_surya : OcrEnhancer.world :=
  {| OcrEnhancer.SURYA_AVAILABLE := false;
     OcrEnhancer.RecognitionPredictor := Return tt;
     OcrEnhancer.DetectionPredictor := Return tt;
     OcrEnhancer.TableRecPredictor := Return tt;
     OcrEnhancer.crop := pillow_crop;
     OcrEnhancer.new := pillow_new;
     OcrEnhancer.paste := pillow_paste;
     OcrEnhancer.recognition_predictor := fun _ => Return hello_xx;
     OcrEnhancer.table_rec_predictor := fun _ => Return first_cell_only;
     OcrEnhancer.import_bbox_utils := Return tt;
     OcrEnhancer.to_native_bbox := scale_bbox |}.

End FailureFixtures.

(** * Properties *)

(** ** The computation monad *)

Section MonadLaws.

Context {S E : Type}.

Lemma result_ret {A} (a : A) (s : S) : result (ret (E := E) a s) = Return a.
Proof. reflexivity. Qed.

Lemma final_ret {A} (a : A) (s : S) : final (ret (E := E) a s) = s.
Proof. reflexivity. Qed.

Lemma bind_raise {A B} (m : M S E A) (k : A -> M S E B) s e :
  result (m s) = Raise e ->
  bind m k s = Run (trace (m s)) (final (m s)) (Raise e).
Proof.
  unfold bind. destruct (m s) as [t s' o]. cbn. intros ->. reflexivity.
Qed.

Lemma bind_return {A B} (m : M S E A) (k : A -> M S E B) s a :
  result (m s) = Return a ->
  bind m k s =
  Run (trace (m s) ++ trace (k a (final (m s))))
      (final (k a (final (m s)))) (result (k a (final (m s)))).
Proof.
  unfold bind. destruct (m s) as [t s' o]. cbn. intros ->.
  now destruct (k a s').
Qed.

Lemma try_except_return {A} (m : M S E A) h s a :
  result (m s) = Return a -> try_except m h s = m s.
Proof.
  unfold try_except. destruct (m s) as [t s' o]. cbn. intros ->. reflexivity.
Qed.

Lemma try_except_raise {A} (m : M S E A) h s e :
  result (m s) = Raise e ->
  try_except m h s =
  Run (trace (m s) ++ trace (h e (final (m s))))
      (final (h e (final (m s)))) (result (h e (final (m s)))).
Proof.
  unfold try_except. destruct (m s) as [t s' o]. cbn. intros ->.
  now destruct (h e s').
Qed.

End MonadLaws.

(** Case analysis on every outcome the goal still branches on. *)
Ltac outcomes :=
  repeat match goal with
         | |- context [match ?x with _ => _ end] =>
           lazymatch type of x with
           | outcome _ => destruct x eqn:?; cbn
           end
         end.

(** Literals and encodings stay folded while a proof simplifies. *)
Arguments lit : simpl never.
Arguments b64encode : simpl never.

(** ** The prelude on known values *)

Example utf8_decode_two_and_three_bytes :
  lit "é→" = [0xE9; 0x2192]%N.
Proof. vm_compute. reflexivity. Qed.

Example b64encode_rfc4648 :
  b64encode (lit "f") = lit "Zg==" /\
  b64encode (lit "fo") = lit "Zm8=" /\
  b64encode (lit "foo") = lit "Zm9v" /\
  b64encode (lit "foobar") = lit "Zm9vYmFy".
Proof. repeat apply conj; vm_compute; reflexivity. Qed.

Example strip_both_ends :
  strip ([0x20; 0x09] ++ lit "Hello  xx" ++ [0x0A; 0xA0; 0x3000])%N = lit "Hello  xx".
Proof. vm_compute. reflexivity. Qed.

Example join_with_space :
  join (lit " ") [lit "a"; lit "b"; lit "c"] = lit "a b c" /\
  join (lit " ") [lit "a"] = lit "a" /\
  join (lit " ") [] = [].
Proof. repeat apply conj; vm_compute; reflexivity. Qed.

Example floor_division_of_a_negative : (-3) / 2 = -2.
Proof. reflexivity. Qed.

(** ** The picture annotation service *)

Module AnnotationServiceProofs.

Import Convert Models AnnotationService Fixtures.

(** The backend handlers read [self] and leave it as it was. *)
Lemma handlers_final w image self :
  final (_annotate_with_local_model image self) = self /\
  final (_annotate_with_runpod w image self) = self /\
  final (_annotate_with_openai w image self) = self.
Proof.
  unfold _annotate_with_local_model, _annotate_with_runpod,
    _annotate_with_openai, first_choice_content, bind, call, get, ret, raise.
  cbn. destruct self as [[k rp oa]]. cbn.
  repeat apply conj; [reflexivity | destruct rp | destruct oa]; cbn;
    outcomes; try reflexivity;
    match goal with c : chat_completion |- _ => destruct c as [[|? ?]] end;
    reflexivity.
Qed.

(** A result a backend handler returns carries no error. *)
Lemma handlers_return_no_error w image self res :
  (result (_annotate_with_local_model image self) = Return res \/
   result (_annotate_with_runpod w image self) = Return res \/
   result (_annotate_with_openai w image self) = Return res) ->
  AnnotationResult.error res = None.
Proof.
  unfold _annotate_with_local_model, _annotate_with_runpod,
    _annotate_with_openai, first_choice_content, bind, call, get, ret, raise.
  cbn. destruct self as [[k rp oa]]. cbn.
  intros [H | [H | H]]; revert H; [ | destruct rp | destruct oa]; cbn; outcomes;
    try match goal with c : chat_completion |- _ => destruct c as [[|? ?]] end;
    cbn; intros H; try discriminate H; injection H as <-; reflexivity.
Qed.

(** Dispatch leaves [self] as it was, whatever [model_type] holds. *)
Lemma dispatch_on_final w kind image self :
  final (dispatch_on w kind image self) = self.
Proof.
  destruct (handlers_final w image self) as (Hlocal & Hrunpod & Hopenai).
  unfold dispatch_on.
  destruct (equals kind LOCAL); [exact Hlocal |].
  destruct (equals kind RUNPOD); [exact Hrunpod |].
  destruct (equals kind OPENAI); [exact Hopenai | reflexivity].
Qed.

Lemma dispatch_on_return_no_error w kind image self res :
  result (dispatch_on w kind image self) = Return res ->
  AnnotationResult.error res = None.
Proof.
  unfold dispatch_on. intros H. apply (handlers_return_no_error w image self).
  destruct (equals kind LOCAL); [now left |].
  destruct (equals kind RUNPOD); [now right; left |].
  destruct (equals kind OPENAI); [now right; right | discriminate H].
Qed.

Lemma dispatch_final w image self : final (dispatch w image self) = self.
Proof. apply dispatch_on_final. Qed.

Lemma dispatch_return_no_error w image self res :
  result (dispatch w image self) = Return res ->
  AnnotationResult.error res = None.
Proof. apply dispatch_on_return_no_error. Qed.

(** A member of the enum is dispatched to its handler: the final [else] of
    [annotate_image] is taken for no member. *)
Lemma dispatch_on_member w k image self :
  dispatch_on w (Member k) image self
  = match k with
    | LOCAL => _annotate_with_local_model image self
    | RUNPOD => _annotate_with_runpod w image self
    | OPENAI => _annotate_with_openai w image self
    end.
Proof. now destruct k. Qed.

(** C1, as stated, fails for a kind that is not a member of the enum: the
    handler reads [model_type.value], which a plain string does not have.
    With the unsupported kind "gemini" the dispatch raises the ValueError of
    the final [else], the error is logged, and an AttributeError leaves
    [annotate_image].  The same happens with the plain string "runpod",
    which is dispatched to the RunPod handler, when the backend times out. *)
Lemma unsupported_kind_escapes_the_handler :
  let timeout := Raise (Exception "APITimeoutError" (lit "Request timed out.")) in
  let self := {| options := runpod_options |} in
  result (dispatch_on (backend ∅ timeout) (Plain (lit "gemini")) image_100x100 self)
  = Raise (ValueError (lit "Unsupported model type: gemini")) /\
  annotate_image_on (backend ∅ timeout) (Plain (lit "gemini")) image_100x100 self
  = Run [LogError (lit "Error during image annotation: Unsupported model type: gemini")]
        self
        (Raise (AttributeError (lit "'str' object has no attribute 'value'"))) /\
  result (dispatch_on (backend ∅ timeout) (Plain (lit "runpod")) image_100x100 self)
  = Raise (Exception "APITimeoutError" (lit "Request timed out.")) /\
  result (annotate_image_on (backend ∅ timeout) (Plain (lit "runpod")) image_100x100 self)
  = Raise (AttributeError (lit "'str' object has no attribute 'value'")).
Proof. cbv zeta. repeat apply conj; vm_compute; reflexivity. Qed.

(** C1, amended.  When [model_type] holds a member of the enum,
    [annotate_image] always returns an [AnnotationResult] and leaves the
    service as it was.  When the dispatch to the backend handler raises an
    exception [e], whatever its origin, the result has the empty text, the
    string value of the kind as provenance and [str(e)] as error; otherwise
    it is the handler's result, whose error is not set.  Hence in every
    result returned, an error that is set comes with the empty text and
    with the kind's value as provenance. *)
Theorem annotate_image_never_raises
    (w : world) (kind : PictureAnnotationModelType)
    (self : PictureAnnotationService) (image : PIL.Image) :
  exists res : AnnotationResult.t,
    result (annotate_image_on w (Member kind) image self) = Return res /\
    final (annotate_image_on w (Member kind) image self) = self /\
    match result (dispatch_on w (Member kind) image self) with
    | Raise e =>
      res = {| AnnotationResult.text := [];
               AnnotationResult.provenance := value kind;
               AnnotationResult.confidence := None;
               AnnotationResult.error := Some (exc_msg e) |}
    | Return ok => res = ok /\ AnnotationResult.error ok = None
    end /\
    (forall msg, AnnotationResult.error res = Some msg ->
       AnnotationResult.text res = [] /\
       AnnotationResult.provenance res = value kind).
Proof.
  unfold annotate_image_on.
  destruct (result (dispatch_on w (Member kind) image self)) as [e | ok] eqn:Hd.
  - rewrite (try_except_raise _ _ _ _ Hd), dispatch_on_final.
    eexists. repeat split; reflexivity.
  - rewrite (try_except_return _ _ _ _ Hd), Hd, dispatch_on_final.
    pose proof (dispatch_on_return_no_error _ _ _ _ _ Hd) as Hno.
    exists ok. repeat split; trivial; rewrite Hno in *; discriminate.
Qed.

(** The same result, read off the trace: the three ways an API backend
    fails (encoding, network, response parsing) and the missing
    configuration all end in the handler. *)
Lemma dispatch_raises_without_config w image self :
  PictureAnnotationOptions.model_type (options self) = OPENAI ->
  PictureAnnotationOptions.openai_config (options self) = None ->
  result (dispatch w image self)
  = Raise (ValueError (lit "OpenAI configuration not available")).
Proof.
  destruct self as [[k rp oa]]. cbn. intros -> ->. reflexivity.
Qed.

Lemma dispatch_raises_on_encoding w image self config e :
  PictureAnnotationOptions.model_type (options self) = RUNPOD ->
  PictureAnnotationOptions.runpod_config (options self) = Some config ->
  image_save w image (lit "PNG") = Raise e ->
  result (dispatch w image self) = Raise e.
Proof.
  destruct self as [[k rp oa]]. cbn. intros -> -> Hs.
  unfold dispatch, dispatch_on, _annotate_with_runpod, bind, get, call. cbn.
  now rewrite Hs.
Qed.

Lemma first_choice_of_empty_response (self : PictureAnnotationService) :
  result (first_choice_content {| choices := [] |} self)
  = Raise (IndexError (lit "list index out of range")).
Proof. reflexivity. Qed.

(** Scenario B of the specification: the RunPod backend times out. *)
Lemma annotate_image_never_raises_scenario_B :
  exists res,
    result (annotate_image
              (backend ∅ (Raise (Exception "APITimeoutError" (lit "Request timed out."))))
              image_100x100 {| options := runpod_options |}) = Return res /\
    res = {| AnnotationResult.text := [];
             AnnotationResult.provenance := lit "runpod";
             AnnotationResult.confidence := None;
             AnnotationResult.error := Some (lit "Request timed out.") |}.
Proof.
  destruct (annotate_image_never_raises
              (backend ∅ (Raise (Exception "APITimeoutError" (lit "Request timed out."))))
              RUNPOD {| options := runpod_options |} image_100x100)
    as (res & Hres & _ & Hdispatch & _).
  exists res. split; [exact Hres | exact Hdispatch].
Defined.

(** C9. A successful call of an API backend: the text of the result is the
    content of the first choice of the response (the empty string when that
    content is missing), the provenance names backend and model, no error is
    set.  The OpenAI client is built without a base URL (the library's
    default endpoint) and the image is sent with detail "high"; the RunPod
    client is built on [https://api.runpod.ai/v2/<worker_id>/openai/v1] and
    the image is sent with detail "low". *)
Theorem api_backend_returns_first_choice
    (w : world) (self : PictureAnnotationService) (image : PIL.Image) :
  (forall config buffered first rest,
     PictureAnnotationOptions.model_type (options self) = OPENAI ->
     PictureAnnotationOptions.openai_config (options self) = Some config ->
     image_save w image (lit "PNG") = Return buffered ->
     let client :=
       {| base_url := None;
          client_api_key := OpenAIAnnotationConfig.api_key config |} in
     let request :=
       {| req_model := OpenAIAnnotationConfig.model config;
          req_messages :=
            [ {| role := lit "user";
                 content :=
                   [ ImageUrl (lit "data:image/png;base64," ++ b64encode buffered)
                              (lit "high");
                     Text (OpenAIAnnotationConfig.prompt config) ] |} ];
          req_temperature := OpenAIAnnotationConfig.temperature config |} in
     openai_init w client = Return tt ->
     chat_completions_create w client request
       = Return {| choices := first :: rest |} ->
     annotate_image w image self
     = Run [ImageSave image (lit "PNG"); NewClient client;
            ChatCompletionsCreate client request]
           self
           (Return {| AnnotationResult.text := or_else (message_content first) [];
                      AnnotationResult.provenance :=
                        lit "openai:" ++ OpenAIAnnotationConfig.model config;
                      AnnotationResult.confidence := None;
                      AnnotationResult.error := None |}))
  /\
  (forall config buffered first rest,
     PictureAnnotationOptions.model_type (options self) = RUNPOD ->
     PictureAnnotationOptions.runpod_config (options self) = Some config ->
     image_save w image (lit "PNG") = Return buffered ->
     let client :=
       {| base_url :=
            Some (lit "https://api.runpod.ai/v2/"
                  ++ RunPodAnnotationConfig.worker_id config ++ lit "/openai/v1");
          client_api_key := RunPodAnnotationConfig.api_key config |} in
     let request :=
       {| req_model := RunPodAnnotationConfig.model config;
          req_messages :=
            [ {| role := lit "user";
                 content :=
                   [ ImageUrl (lit "data:image/png;base64," ++ b64encode buffered)
                              (lit "low");
                     Text (RunPodAnnotationConfig.prompt config) ] |} ];
          req_temperature := RunPodAnnotationConfig.temperature config |} in
     openai_init w client = Return tt ->
     chat_completions_create w client request
       = Return {| choices := first :: rest |} ->
     annotate_image w image self
     = Run [ImageSave image (lit "PNG"); NewClient client;
            ChatCompletionsCreate client request]
           self
           (Return {| AnnotationResult.text := or_else (message_content first) [];
                      AnnotationResult.provenance :=
                        lit "runpod:" ++ RunPodAnnotationConfig.model config;
                      AnnotationResult.confidence := None;
                      AnnotationResult.error := None |})).
Proof.
  destruct self as [[k rp oa]]. cbn [options
    PictureAnnotationOptions.model_type PictureAnnotationOptions.runpod_config
    PictureAnnotationOptions.openai_config].
  split; intros config buffered first rest -> -> Hsave Hinit Hcreate;
    unfold annotate_image, annotate_image_on, try_except, dispatch_on,
      _annotate_with_openai,
      _annotate_with_runpod, user_message, first_choice_content, bind, call, get, ret;
    cbn; rewrite Hsave; cbn; rewrite Hinit; cbn; rewrite Hcreate; reflexivity.
Qed.

(** Scenario A of the specification: the OpenAI backend answers
    "a red car". *)
Lemma api_backend_returns_first_choice_scenario_A :
  result (annotate_image (backend ∅ (says (lit "a red car"))) image_100x100
            {| options := openai_options |})
  = Return {| AnnotationResult.text := lit "a red car";
              AnnotationResult.provenance := lit "openai:gpt-4-vision-preview";
              AnnotationResult.confidence := None;
              AnnotationResult.error := None |}.
Proof.
  rewrite (proj1 (api_backend_returns_first_choice
                    (backend ∅ (says (lit "a red car")))
                    {| options := openai_options |} image_100x100)
             (OpenAIAnnotationConfig.new (lit "sk-test"))
             [0x89; 0x50; 0x4E; 0x47]%N
             {| message_content := Some (lit "a red car") |} []
             eq_refl eq_refl eq_refl eq_refl eq_refl).
  vm_compute. reflexivity.
Defined.

(** C10. Constructing the service without options succeeds in every
    environment, reads no environment variable, and selects the local
    backend; [annotate_image] on that service returns the placeholder result
    in every world, calls nothing outside and leaves the service as it was,
    so that every later call does the same. *)
Theorem default_service_is_local (w : world) :
  exists svc : PictureAnnotationService,
    __init__ w None = ([], Return svc) /\
    options svc
    = {| PictureAnnotationOptions.model_type := LOCAL;
         PictureAnnotationOptions.runpod_config := None;
         PictureAnnotationOptions.openai_config := None |} /\
    forall (w' : world) (image : PIL.Image),
      annotate_image w' image svc
      = Run [] svc
          (Return {| AnnotationResult.text := lit "Local model annotation placeholder";
                     AnnotationResult.provenance := lit "local_model";
                     AnnotationResult.confidence := None;
                     AnnotationResult.error := None |}).
Proof.
  exists {| options :=
              {| PictureAnnotationOptions.model_type := LOCAL;
                 PictureAnnotationOptions.runpod_config := None;
                 PictureAnnotationOptions.openai_config := None |} |}.
  split; [reflexivity |]. split; [reflexivity |].
  intros w' image. reflexivity.
Qed.

(** The construction of the service never calls a backend. *)
Lemma init_calls_no_backend w opts :
  backend_call_count (fst (__init__ w opts)) = 0%nat.
Proof.
  unfold __init__, _validate_configuration, set_runpod_config,
    set_openai_config, getenv, getenv_default, bind, call, get, put, ret, raise.
  destruct opts as [[k rp oa] |]; [| reflexivity].
  destruct k, rp, oa; cbn; try reflexivity;
    repeat match goal with
           | |- context [truthy_opt ?x] => destruct (truthy_opt x); cbn
           end; reflexivity.
Qed.

(** C4. A service constructed on options of kind RunPod that carry no
    RunPod configuration reads RUNPOD_API_KEY, RUNPOD_WORKER and
    RUNPOD_MODEL from the environment.  When the key or the worker is absent
    (or empty) the construction raises a ValueError whose message names both
    variables; otherwise the configuration is built from them, the model
    being RUNPOD_MODEL or else "Qwen/Qwen2.5-VL-3B-Instruct".  The same for
    kind OpenAI with OPENAI_API_KEY and the default model of
    [OpenAIAnnotationConfig].  No construction calls a backend, and the
    validated constructor of the options refuses a missing configuration
    before the service is even built. *)
Theorem missing_config_is_resolved_from_environment
    (w : world) (o : PictureAnnotationOptions.t) :
  (PictureAnnotationOptions.model_type o = RUNPOD ->
   PictureAnnotationOptions.runpod_config o = None ->
   let api_key := environ w !! lit "RUNPOD_API_KEY" in
   let worker_id := environ w !! lit "RUNPOD_WORKER" in
   let reads := [Getenv (lit "RUNPOD_API_KEY"); Getenv (lit "RUNPOD_WORKER");
                 Getenv (lit "RUNPOD_MODEL")] in
   if truthy_opt api_key && truthy_opt worker_id then
     __init__ w (Some o)
     = (reads,
        Return {| options :=
          {| PictureAnnotationOptions.model_type := RUNPOD;
             PictureAnnotationOptions.runpod_config :=
               Some {| RunPodAnnotationConfig.api_key := default [] api_key;
                       RunPodAnnotationConfig.worker_id := default [] worker_id;
                       RunPodAnnotationConfig.model :=
                         default (lit "Qwen/Qwen2.5-VL-3B-Instruct")
                                 (environ w !! lit "RUNPOD_MODEL");
                       RunPodAnnotationConfig.prompt :=
                         RunPodAnnotationConfig.default_prompt;
                       RunPodAnnotationConfig.temperature := 0.6%float |};
             PictureAnnotationOptions.openai_config :=
               PictureAnnotationOptions.openai_config o |} |})
   else
     exists msg,
       __init__ w (Some o) = (reads, Raise (ValueError msg)) /\
       contains msg (lit "RUNPOD_API_KEY") = true /\
       contains msg (lit "RUNPOD_WORKER") = true)
  /\
  (PictureAnnotationOptions.model_type o = OPENAI ->
   PictureAnnotationOptions.openai_config o = None ->
   let api_key := environ w !! lit "OPENAI_API_KEY" in
   let reads := [Getenv (lit "OPENAI_API_KEY")] in
   if truthy_opt api_key then
     __init__ w (Some o)
     = (reads,
        Return {| options :=
          {| PictureAnnotationOptions.model_type := OPENAI;
             PictureAnnotationOptions.runpod_config :=
               PictureAnnotationOptions.runpod_config o;
             PictureAnnotationOptions.openai_config :=
               Some {| OpenAIAnnotationConfig.api_key := default [] api_key;
                       OpenAIAnnotationConfig.model := lit "gpt-4-vision-preview";
                       OpenAIAnnotationConfig.prompt :=
                         OpenAIAnnotationConfig.default_prompt;
                       OpenAIAnnotationConfig.temperature := 0.6%float |} |} |})
   else
     exists msg,
       __init__ w (Some o) = (reads, Raise (ValueError msg)) /\
       contains msg (lit "OPENAI_API_KEY") = true)
  /\
  backend_call_count (fst (__init__ w (Some o))) = 0%nat
  /\
  (forall oa, exists msg,
     PictureAnnotationOptions.new (Some RUNPOD) None oa = Raise (ValueError msg))
  /\
  (forall rp, exists msg,
     PictureAnnotationOptions.new (Some OPENAI) rp None = Raise (ValueError msg)).
Proof.
  repeat apply conj.
  - destruct o as [k rp oa]. cbn. intros -> ->.
    unfold __init__, _validate_configuration, set_runpod_config,
      getenv, getenv_default, bind, call, get, put, ret, raise. cbn.
    destruct (truthy_opt (environ w !! lit "RUNPOD_API_KEY")); cbn;
      [destruct (truthy_opt (environ w !! lit "RUNPOD_WORKER")); cbn |];
      try reflexivity; eexists; (split; [reflexivity |]);
      split; vm_compute; reflexivity.
  - destruct o as [k rp oa]. cbn. intros -> ->.
    unfold __init__, _validate_configuration, set_openai_config,
      getenv, getenv_default, bind, call, get, put, ret, raise. cbn.
    destruct (truthy_opt (environ w !! lit "OPENAI_API_KEY")); cbn;
      try reflexivity; eexists; (split; [reflexivity |]);
      vm_compute; reflexivity.
  - apply init_calls_no_backend.
  - intros oa. eexists. reflexivity.
  - intros [rp |]; eexists; reflexivity.
Qed.

(** The two branches of C4 on concrete environments: an empty one, and one
    that sets the key and the worker. *)
Lemma missing_config_is_resolved_from_environment_runs :
  (exists msg,
     __init__ (backend ∅ (says [])) (Some runpod_unconfigured)
     = ([Getenv (lit "RUNPOD_API_KEY"); Getenv (lit "RUNPOD_WORKER");
         Getenv (lit "RUNPOD_MODEL")], Raise (ValueError msg)) /\
     contains msg (lit "RUNPOD_API_KEY") = true /\
     contains msg (lit "RUNPOD_WORKER") = true)
  /\
  (exists msg,
     __init__ (backend ∅ (says [])) (Some openai_unconfigured)
     = ([Getenv (lit "OPENAI_API_KEY")], Raise (ValueError msg)) /\
     contains msg (lit "OPENAI_API_KEY") = true)
  /\
  snd (__init__ (backend runpod_env (says [])) (Some runpod_unconfigured))
  = Return {| options := runpod_options |}.
Proof.
  split; [| split].
  - exact (proj1 (missing_config_is_resolved_from_environment
                    (backend ∅ (says [])) runpod_unconfigured) eq_refl eq_refl).
  - exact (proj1 (proj2 (missing_config_is_resolved_from_environment
                           (backend ∅ (says [])) openai_unconfigured))
             eq_refl eq_refl).
  - exact (f_equal snd
             (proj1 (missing_config_is_resolved_from_environment
                       (backend runpod_env (says [])) runpod_unconfigured)
                eq_refl eq_refl
              <: __init__ (backend runpod_env (says [])) (Some runpod_unconfigured)
                 = ([Getenv (lit "RUNPOD_API_KEY"); Getenv (lit "RUNPOD_WORKER");
                     Getenv (lit "RUNPOD_MODEL")],
                    Return {| options := runpod_options |}))).
Defined.

(** C5, as stated, fails: options that carry a RunPod and an OpenAI
    configuration at once pass the validator of the options and the
    validation of the service, and [annotate_image] calls a backend with
    them. *)
Lemma two_provider_configs_reach_dispatch :
  PictureAnnotationOptions.validate_model_config both_configs = Return both_configs /\
  __init__ (backend ∅ (says (lit "ok"))) (Some both_configs)
  = ([], Return {| options := both_configs |}) /\
  is_Some_b (PictureAnnotationOptions.runpod_config both_configs)
  && is_Some_b (PictureAnnotationOptions.openai_config both_configs) = true /\
  backend_call_count
    (trace (annotate_image (backend ∅ (says (lit "ok"))) image_100x100
              {| options := both_configs |})) = 1%nat /\
  result (annotate_image (backend ∅ (says (lit "ok"))) image_100x100
            {| options := both_configs |})
  = Return (AnnotationResult.new (lit "ok") (lit "runpod:Qwen/Qwen2.5-VL-3B-Instruct")).
Proof. repeat apply conj; vm_compute; reflexivity. Qed.

(** The validation of the service keeps the kind and touches only the
    configuration of that kind. *)
Lemma init_returns w o svc :
  snd (__init__ w (Some o)) = Return svc ->
  PictureAnnotationOptions.model_type (options svc)
  = PictureAnnotationOptions.model_type o /\
  (PictureAnnotationOptions.model_type o = RUNPOD ->
   is_Some (PictureAnnotationOptions.runpod_config (options svc))) /\
  (PictureAnnotationOptions.model_type o = OPENAI ->
   is_Some (PictureAnnotationOptions.openai_config (options svc))).
Proof.
  unfold __init__, _validate_configuration, set_runpod_config,
    set_openai_config, getenv, getenv_default, bind, call, get, put, ret, raise.
  destruct o as [k rp oa].
  destruct k, rp, oa; cbn;
    repeat match goal with
           | |- context [truthy_opt ?x] => destruct (truthy_opt x); cbn
           end;
    intros H; try discriminate H; injection H as <-; cbn;
    repeat split; intros; try discriminate; eauto.
Qed.

(** [annotate_image] reads the kind and the configuration of that kind, and
    nothing else of the options. *)
Lemma annotate_image_reads_matching_config w image o1 o2 :
  PictureAnnotationOptions.model_type o1 = PictureAnnotationOptions.model_type o2 ->
  (PictureAnnotationOptions.model_type o1 = RUNPOD ->
   PictureAnnotationOptions.runpod_config o1 = PictureAnnotationOptions.runpod_config o2) ->
  (PictureAnnotationOptions.model_type o1 = OPENAI ->
   PictureAnnotationOptions.openai_config o1 = PictureAnnotationOptions.openai_config o2) ->
  trace (annotate_image w image {| options := o1 |})
  = trace (annotate_image w image {| options := o2 |}) /\
  result (annotate_image w image {| options := o1 |})
  = result (annotate_image w image {| options := o2 |}).
Proof.
  destruct o1 as [k1 rp1 oa1], o2 as [k2 rp2 oa2]. cbn.
  intros <- Hrp Hoa.
  unfold annotate_image, annotate_image_on, try_except, dispatch_on,
    _annotate_with_local_model,
    _annotate_with_runpod, _annotate_with_openai, first_choice_content,
    bind, call, get, ret, raise, eval.
  destruct k1; cbn.
  - split; reflexivity.
  - rewrite <- (Hrp eq_refl). destruct rp1; cbn; [| split; reflexivity].
    outcomes; try (split; reflexivity);
      match goal with c : chat_completion |- _ => destruct c as [[|? ?]] end;
      split; reflexivity.
  - rewrite <- (Hoa eq_refl). destruct oa1; cbn; [| split; reflexivity].
    outcomes; try (split; reflexivity);
      match goal with c : chat_completion |- _ => destruct c as [[|? ?]] end;
      split; reflexivity.
Qed.

(** C5, amended.  Options that passed their validator, and a service that
    was constructed, carry the configuration of the selected kind (RunPod or
    OpenAI; Local needs none); [annotate_image] reads that configuration and
    no other, so that a second provider configuration, which is allowed, has
    no effect.  Conversion options that set both [picture_description_local]
    and [picture_description_api] are refused at construction, whatever
    their other fields and whatever the annotation kind. *)
Theorem selected_provider_config_is_present
    (w : world) (o : PictureAnnotationOptions.t) :
  (forall o', PictureAnnotationOptions.validate_model_config o = Return o' ->
     o' = o /\
     (PictureAnnotationOptions.model_type o = RUNPOD ->
      is_Some (PictureAnnotationOptions.runpod_config o)) /\
     (PictureAnnotationOptions.model_type o = OPENAI ->
      is_Some (PictureAnnotationOptions.openai_config o)))
  /\
  (forall svc, snd (__init__ w (Some o)) = Return svc ->
     PictureAnnotationOptions.model_type (options svc)
     = PictureAnnotationOptions.model_type o /\
     (PictureAnnotationOptions.model_type o = RUNPOD ->
      is_Some (PictureAnnotationOptions.runpod_config (options svc))) /\
     (PictureAnnotationOptions.model_type o = OPENAI ->
      is_Some (PictureAnnotationOptions.openai_config (options svc))))
  /\
  (forall image o2,
     PictureAnnotationOptions.model_type o = PictureAnnotationOptions.model_type o2 ->
     (PictureAnnotationOptions.model_type o = RUNPOD ->
      PictureAnnotationOptions.runpod_config o = PictureAnnotationOptions.runpod_config o2) ->
     (PictureAnnotationOptions.model_type o = OPENAI ->
      PictureAnnotationOptions.openai_config o = PictureAnnotationOptions.openai_config o2) ->
     trace (annotate_image w image {| options := o |})
     = trace (annotate_image w image {| options := o2 |}) /\
     result (annotate_image w image {| options := o |})
     = result (annotate_image w image {| options := o2 |}))
  /\
  (forall enhance fix_encoding local api annotation, exists msg,
     ConvertDocumentsOptions.new enhance fix_encoding (Some local) (Some api) annotation
     = Raise (ValueError msg)).
Proof.
  repeat apply conj.
  - destruct o as [k rp oa]. unfold PictureAnnotationOptions.validate_model_config.
    destruct k, rp, oa; cbn; intros o' H; try discriminate H;
      injection H as <-; repeat split; intros; try discriminate; eauto.
  - intros svc. apply init_returns.
  - intros image o2. apply annotate_image_reads_matching_config.
  - intros. eexists. reflexivity.
Qed.

(** The amended C5 on the options with both configurations: the service is
    built, the RunPod configuration is there, and dropping the OpenAI one
    changes nothing of what [annotate_image] does. *)
Lemma selected_provider_config_is_present_runs :
  is_Some (PictureAnnotationOptions.runpod_config both_configs) /\
  result (annotate_image (backend ∅ (says (lit "ok"))) image_100x100
            {| options := both_configs |})
  = result (annotate_image (backend ∅ (says (lit "ok"))) image_100x100
              {| options := runpod_options |}) /\
  exists msg,
    ConvertDocumentsOptions.new false false
      (Some local_description) (Some api_description) (Some both_configs)
    = Raise (ValueError msg).
Proof.
  pose proof (selected_provider_config_is_present
                (backend ∅ (says (lit "ok"))) both_configs)
    as (Hvalid & _ & Hreads & Hexcl).
  split; [| split].
  - exact (proj1 (proj2 (Hvalid both_configs eq_refl)) eq_refl).
  - refine (proj2 (Hreads image_100x100 runpod_options eq_refl _ _));
      [reflexivity | discriminate].
  - exact (Hexcl false false local_description api_description (Some both_configs)).
Defined.

End AnnotationServiceProofs.

(** ** The OCR enhancer *)

Module OcrEnhancerProofs.

Import OcrEnhancer Fixtures TextSpec.

Arguments strip : simpl never.
Arguments join : simpl never.
Arguments collect_lines : simpl never.

(** *** Comparison of binary64 numbers *)

Lemma SFcompare_antisym a b c :
  SFcompare a b = Some c -> SFcompare b a = Some (CompOpp c).
Proof.
  destruct a as [sa | sa | | sa ma ea], b as [sb | sb | | sb mb eb]; cbn;
    try discriminate; intros [= <-]; f_equal;
    repeat match goal with s : bool |- _ => destruct s end;
    cbn; try reflexivity;
    rewrite (Z.compare_antisym ea eb),
      <- (Pos.compare_cont_antisym ma mb Eq : CompOpp _ = Pos.compare_cont Eq mb ma);
    destruct (ea ?= eb)%Z; cbn; rewrite ?CompOpp_involutive; reflexivity.
Qed.

(** [x <= y] excludes [y < x]. *)
Lemma leb_not_gt (x y : float) :
  (x <=? y)%float = true -> (y <? x)%float = false.
Proof.
  rewrite leb_spec, ltb_spec. unfold SFleb, SFltb.
  destruct (SFcompare (Prim2SF x) (Prim2SF y)) as [c |] eqn:Hc; [| discriminate].
  rewrite (SFcompare_antisym _ _ _ Hc). now destruct c.
Qed.

(** *** The loop that collects the lines *)

Lemma collect_lines_from acc text_lines :
  fold_left
    (fun lines line =>
       if (0.5 <? confidence line)%float then lines ++ [text line] else lines)
    text_lines acc
  = acc ++ map text (List.filter (fun line => (0.5 <? confidence line)%float) text_lines).
Proof.
  revert acc. induction text_lines as [| line rest IH]; intros acc; cbn.
  - now rewrite app_nil_r.
  - rewrite IH. destruct (0.5 <? confidence line)%float; cbn; [| reflexivity].
    now rewrite <- app_assoc.
Qed.

Lemma collect_lines_filter text_lines :
  collect_lines text_lines
  = map text (List.filter (fun line => (0.5 <? confidence line)%float) text_lines).
Proof. unfold collect_lines. now rewrite collect_lines_from. Qed.

Lemma filter_all_low text_lines :
  (forall line, In line text_lines -> (confidence line <=? 0.5)%float = true) ->
  List.filter (fun line => (0.5 <? confidence line)%float) text_lines = [].
Proof.
  induction text_lines as [| line rest IH]; intros Hlow; cbn; [reflexivity |].
  rewrite (leb_not_gt _ _ (Hlow line (or_introl eq_refl))).
  apply IH. intros ln Hin. apply Hlow. now right.
Qed.

(** *** The models of the enhancer *)

(** Without Surya, or when a predictor cannot be built, the enhancer is
    constructed all the same, with its models marked as not loaded. *)
Lemma models_not_loaded_when_unavailable w :
  (SURYA_AVAILABLE w = false \/
   (exists e, RecognitionPredictor w = Raise e) \/
   (exists e, DetectionPredictor w = Raise e) \/
   (exists e, TableRecPredictor w = Raise e)) ->
  _models_loaded (snd (__init__ w)) = false.
Proof.
  unfold __init__, try_except, bind, call, ret.
  destruct (SURYA_AVAILABLE w); [| reflexivity].
  intros [H | [[e H] | [[e H] | [e H]]]]; [discriminate H | | |];
    cbn; outcomes; try reflexivity; congruence.
Qed.

Lemma models_loaded_when_available w :
  SURYA_AVAILABLE w = true ->
  RecognitionPredictor w = Return tt ->
  DetectionPredictor w = Return tt ->
  TableRecPredictor w = Return tt ->
  __init__ w
  = ([NewPredictor "RecognitionPredictor"; NewPredictor "DetectionPredictor";
      NewPredictor "TableRecPredictor"], {| _models_loaded := true |}).
Proof.
  intros Ha Hr Hd Ht. unfold __init__, try_except, bind, call, ret.
  rewrite Ha, Hr. cbn. rewrite Hd. cbn. now rewrite Ht.
Qed.

(** *** [extract_text_from_region] *)

(** The run in which Pillow and the recognizer all return. *)
Lemma extract_text_recognized
    w self image bbox old_text cropped background pasted predictions :
  _models_loaded self = true ->
  crop w image (crop_box image bbox) = Return cropped ->
  new w (lit "RGB") (PIL.width cropped * 3, PIL.height cropped * 3) (255, 255, 255)
    = Return background ->
  paste w background cropped
    ((PIL.width cropped * 3 - PIL.width cropped) / 2,
     (PIL.height cropped * 3 - PIL.height cropped) / 2) = Return pasted ->
  recognition_predictor w [pasted] = Return predictions ->
  extract_text_from_region w self image bbox old_text tt
  = Run [Crop image (crop_box image bbox);
         New (lit "RGB") (PIL.width cropped * 3, PIL.height cropped * 3) (255, 255, 255);
         Paste background cropped
           ((PIL.width cropped * 3 - PIL.width cropped) / 2,
            (PIL.height cropped * 3 - PIL.height cropped) / 2);
         Recognize [pasted] true [lit "ocr_with_boxes"]]
        tt
        (Return
           (let merged := strip (join (lit " ") (collect_lines (lines_of predictions))) in
            if truthy merged then merged else old_text)).
Proof.
  intros Hloaded Hcrop Hnew Hpaste Hocr.
  unfold extract_text_from_region, extract_body, try_except, bind, call, ret,
    scale_w, scale_h.
  rewrite Hloaded. cbn. rewrite Hcrop. cbn. rewrite Hnew. cbn.
  rewrite Hpaste. cbn. rewrite Hocr. cbn.
  destruct predictions; reflexivity.
Qed.

(** Every run ends by returning; what it returns is [old_text], unless all
    calls returned and the merged text is not empty. *)
Lemma extract_text_cases w self image bbox old_text :
  result (extract_text_from_region w self image bbox old_text tt) = Return old_text
  \/
  exists cropped background pasted predictions,
    _models_loaded self = true /\
    crop w image (crop_box image bbox) = Return cropped /\
    new w (lit "RGB") (PIL.width cropped * 3, PIL.height cropped * 3) (255, 255, 255)
      = Return background /\
    paste w background cropped
      ((PIL.width cropped * 3 - PIL.width cropped) / 2,
       (PIL.height cropped * 3 - PIL.height cropped) / 2) = Return pasted /\
    recognition_predictor w [pasted] = Return predictions /\
    let merged := strip (join (lit " ") (collect_lines (lines_of predictions))) in
    truthy merged = true /\
    result (extract_text_from_region w self image bbox old_text tt) = Return merged.
Proof.
  destruct (_models_loaded self) eqn:Hloaded;
    [| left; unfold extract_text_from_region; now rewrite Hloaded].
  destruct (crop w image (crop_box image bbox)) as [e | cropped] eqn:Hcrop;
    [left; unfold extract_text_from_region, extract_body, try_except, bind, call;
     rewrite Hloaded; cbn; now rewrite Hcrop |].
  destruct (new w (lit "RGB") (PIL.width cropped * 3, PIL.height cropped * 3)
              (255, 255, 255)) as [e | background] eqn:Hnew;
    [left; unfold extract_text_from_region, extract_body, try_except, bind, call,
       scale_w, scale_h;
     rewrite Hloaded; cbn; rewrite Hcrop; cbn; now rewrite Hnew |].
  destruct (paste w background cropped
              ((PIL.width cropped * 3 - PIL.width cropped) / 2,
               (PIL.height cropped * 3 - PIL.height cropped) / 2))
    as [e | pasted] eqn:Hpaste;
    [left; unfold extract_text_from_region, extract_body, try_except, bind, call,
       scale_w, scale_h;
     rewrite Hloaded; cbn; rewrite Hcrop; cbn; rewrite Hnew; cbn; now rewrite Hpaste |].
  destruct (recognition_predictor w [pasted]) as [e | predictions] eqn:Hocr;
    [left; unfold extract_text_from_region, extract_body, try_except, bind, call,
       scale_w, scale_h;
     rewrite Hloaded; cbn; rewrite Hcrop; cbn; rewrite Hnew; cbn; rewrite Hpaste;
     cbn; now rewrite Hocr |].
  rewrite (extract_text_recognized _ _ _ _ old_text _ _ _ _
             Hloaded Hcrop Hnew Hpaste Hocr).
  cbn [result]. cbv zeta.
  destruct (truthy (strip (join (lit " ") (collect_lines (lines_of predictions)))))
    eqn:Hmerged; [right | left; reflexivity].
  exists cropped, background, pasted, predictions.
  repeat (split; [first [assumption | reflexivity] |]). reflexivity.
Qed.

(** *** Joining and stripping *)

(** [isspace] accepts the whitespace code points and no other. *)
Lemma isspace_whitespace (c : N) : isspace c = true <-> In c whitespace.
Proof.
  split.
  - unfold isspace, whitespace.
    rewrite !orb_true_iff, !andb_true_iff, !N.leb_le, !N.eqb_eq. cbn [In]. lia.
  - unfold whitespace. intros H. cbn [In] in H.
    repeat (destruct H as [<- | H]; [reflexivity |]). contradiction.
Qed.

Lemma not_isspace_whitespace (c : N) : isspace c = false <-> ~ In c whitespace.
Proof.
  rewrite <- isspace_whitespace. destruct (isspace c); split; congruence.
Qed.

(** [" ".join] puts exactly one space between two texts. *)
Lemma join_single_spaced (texts : list str) :
  join (lit " ") texts = single_spaced texts.
Proof.
  destruct texts as [| first others]; [reflexivity |].
  revert first. induction others as [| second rest IH]; intros first; cbn.
  - now rewrite app_nil_r.
  - change (join (lit " ") (first :: second :: rest))
      with (first ++ lit " " ++ join (lit " ") (second :: rest)).
    rewrite IH. reflexivity.
Qed.

(** What [lstrip] and [rstrip] drop is whitespace, and what they leave does
    not begin (end) with whitespace. *)
Lemma lstrip_starts_with_text (s : str) :
  lstrip s = [] \/ exists c rest, lstrip s = c :: rest /\ isspace c = false.
Proof.
  induction s as [| c rest IH]; cbn; [now left |].
  destruct (isspace c) eqn:Hc; [exact IH | right; now exists c, rest].
Qed.

Lemma lstrip_drops_whitespace (s : str) :
  exists blanks, s = blanks ++ lstrip s /\ Forall (fun c => isspace c = true) blanks.
Proof.
  induction s as [| c rest (blanks & Heq & Hblank)]; cbn; [now exists [] |].
  destruct (isspace c) eqn:Hc; [| now exists []].
  exists (c :: blanks). split; [cbn; now f_equal | now constructor].
Qed.

Lemma rstrip_ends_with_text (s : str) :
  rstrip s = [] \/ exists front c, rstrip s = front ++ [c] /\ isspace c = false.
Proof.
  unfold rstrip. destruct (lstrip_starts_with_text (rev s)) as [-> | (c & rest & -> & Hc)];
    [now left | right]. now exists (rev rest), c.
Qed.

Lemma rstrip_drops_whitespace (s : str) :
  exists blanks, s = rstrip s ++ blanks /\ Forall (fun c => isspace c = true) blanks.
Proof.
  destruct (lstrip_drops_whitespace (rev s)) as (blanks & Heq & Hblank).
  exists (rev blanks). split.
  - unfold rstrip. rewrite <- rev_app_distr, <- Heq. now rewrite rev_involutive.
  - now apply List.Forall_rev.
Qed.

(** A stripped string is empty or begins and ends with a character that is
    not whitespace. *)
Lemma strip_has_no_outer_whitespace (s : str) :
  strip s = [] \/
  ((exists c rest, strip s = c :: rest /\ isspace c = false) /\
   (exists front c, strip s = front ++ [c] /\ isspace c = false)).
Proof.
  unfold strip.
  destruct (rstrip_ends_with_text (lstrip s)) as [Hnil | Hlast]; [now left | right].
  split; [| exact Hlast].
  destruct (lstrip_starts_with_text s) as [Hs | (c & rest & Hs & Hc)].
  - rewrite Hs in Hlast. destruct Hlast as (front & c & Heq & _).
    cbn in Heq. now destruct front.
  - destruct (rstrip_drops_whitespace (lstrip s)) as (blanks & Heq & Hblank).
    destruct (rstrip (lstrip s)) as [| c' rest'] eqn:Hr.
    + destruct Hlast as (front & c0 & Habs & _). now destruct front.
    + rewrite Hs in Heq. cbn in Heq. injection Heq as <- _. now exists c, rest'.
Qed.

Lemma Forall_isspace_whitespace (blanks : str) :
  Forall (fun c => isspace c = true) blanks -> Forall (fun c => In c whitespace) blanks.
Proof.
  induction 1 as [| c rest Hc _ IH]; constructor; [now apply isspace_whitespace | exact IH].
Qed.

(** [strip] trims. *)
Lemma strip_trimmed (raw : str) : trimmed raw (strip raw).
Proof.
  destruct (lstrip_drops_whitespace raw) as (before & Hraw & Hbefore).
  destruct (rstrip_drops_whitespace (lstrip raw)) as (after & Hmid & Hafter).
  exists before, after. fold (strip raw) in Hmid.
  split; [now rewrite <- Hmid |].
  split; [now apply Forall_isspace_whitespace |].
  split; [now apply Forall_isspace_whitespace |].
  destruct (strip_has_no_outer_whitespace raw)
    as [-> | [(c & rest & -> & Hc) (front & c' & Hlast & Hc')]].
  - split; [discriminate | intros front c H; now destruct front].
  - split.
    + intros c0 rest0 [= <- _]. now apply not_isspace_whitespace.
    + intros front0 c0 H. rewrite Hlast in H. apply app_inj_tail in H as [_ <-].
      now apply not_isspace_whitespace.
Qed.

Lemma lstrip_whitespace_app (blanks s : str) :
  Forall (fun c => isspace c = true) blanks -> lstrip (blanks ++ s) = lstrip s.
Proof.
  induction 1 as [| c rest Hc _ IH]; cbn; [reflexivity | now rewrite Hc].
Qed.

Lemma whitespace_Forall_isspace (blanks : str) :
  Forall (fun c => In c whitespace) blanks -> Forall (fun c => isspace c = true) blanks.
Proof.
  induction 1 as [| c rest Hc _ IH]; constructor; [now apply isspace_whitespace | exact IH].
Qed.

(** Only one string is the trimmed form of [raw]: what [strip] returns. *)
Lemma trimmed_is_strip (raw s : str) : trimmed raw s -> s = strip raw.
Proof.
  intros (before & after & -> & Hbefore & Hafter & Hfirst & Hlast).
  apply whitespace_Forall_isspace in Hbefore, Hafter.
  unfold strip. rewrite (lstrip_whitespace_app _ _ Hbefore).
  destruct s as [| c rest].
  - cbn. rewrite <- (app_nil_r after) at 1.
    now rewrite (lstrip_whitespace_app _ _ Hafter).
  - assert (Hc : isspace c = false)
      by (apply not_isspace_whitespace; now apply (Hfirst c rest)).
    cbn [app lstrip]. rewrite Hc.
    change (c :: rest ++ after) with ((c :: rest) ++ after).
    unfold rstrip. rewrite rev_app_distr.
    rewrite (lstrip_whitespace_app _ _ (List.Forall_rev Hafter)).
    destruct (exists_last (l := c :: rest) ltac:(discriminate)) as (front & c' & Heq).
    rewrite Heq, rev_app_distr. cbn [rev app lstrip].
    assert (Hc' : isspace c' = false)
      by (apply not_isspace_whitespace; now apply (Hlast front c')).
    rewrite Hc'. cbn. now rewrite rev_involutive.
Qed.

(** C2. When Pillow and the recognizer return, the result is made of
    exactly the lines of the first prediction whose confidence is greater
    than 0.5: their texts with one space between two that follow each other,
    without the whitespace at both ends, or [old_text] when nothing is left.
    When every line the recognizer can return has a confidence of at most
    0.5, the result is [old_text], whatever else happens.  On scenario C of
    the specification (region (10,10,50,40) of a 100x100 image, lines
    "Hello" at 0.9 and "xx" at 0.3) it is "Hello"; for "  Hello" at 0.9,
    "xx" at 0.3 and "wide world \n" at 0.8 it is "Hello wide world"; for
    lines of whitespace only it is [old_text]. *)
Theorem extract_text_keeps_confident_lines :
  (forall w self image bbox old_text cropped background pasted predictions,
     _models_loaded self = true ->
     crop w image (crop_box image bbox) = Return cropped ->
     new w (lit "RGB") (PIL.width cropped * 3, PIL.height cropped * 3) (255, 255, 255)
       = Return background ->
     paste w background cropped
       ((PIL.width cropped * 3 - PIL.width cropped) / 2,
        (PIL.height cropped * 3 - PIL.height cropped) / 2) = Return pasted ->
     recognition_predictor w [pasted] = Return predictions ->
     let kept :=
       List.filter (fun line => (0.5 <? confidence line)%float) (lines_of predictions) in
     exists merged : str,
       trimmed (single_spaced (map text kept)) merged /\
       result (extract_text_from_region w self image bbox old_text tt)
       = Return (match merged with [] => old_text | _ :: _ => merged end))
  /\
  (forall w self image bbox old_text,
     (forall images predictions p line,
        recognition_predictor w images = Return predictions ->
        In p predictions -> In line (text_lines p) ->
        (confidence line <=? 0.5)%float = true) ->
     result (extract_text_from_region w self image bbox old_text tt) = Return old_text)
  /\
  (forall old_text,
     result (extract_text_from_region (surya (Return hello_xx) (Return []))
               loaded image_100x100 (10, 10, 50, 40) old_text tt)
     = Return (lit "Hello"))
  /\
  (forall old_text,
     result (extract_text_from_region (surya (Return padded_lines) (Return []))
               loaded image_100x100 (10, 10, 50, 40) old_text tt)
     = Return (lit "Hello wide world"))
  /\
  (forall old_text,
     result (extract_text_from_region (surya (Return blank_lines) (Return []))
               loaded image_100x100 (10, 10, 50, 40) old_text tt)
     = Return old_text).
Proof.
  repeat apply conj.
  - intros w self image bbox old_text cropped background pasted predictions
      Hloaded Hcrop Hnew Hpaste Hocr kept.
    exists (strip (single_spaced (map text kept))).
    split; [apply strip_trimmed |].
    rewrite (extract_text_recognized _ _ _ _ old_text _ _ _ _
               Hloaded Hcrop Hnew Hpaste Hocr).
    cbn [result]. rewrite collect_lines_filter, join_single_spaced.
    fold kept. now destruct (strip (single_spaced (map text kept))).
  - intros w self image bbox old_text Hlow.
    destruct (extract_text_cases w self image bbox old_text)
      as [Hold | (cropped & background & pasted & predictions
                  & _ & _ & _ & _ & Hocr & Hmerged & _)];
      [exact Hold | exfalso].
    rewrite collect_lines_filter, filter_all_low in Hmerged; [discriminate |].
    intros line Hin. destruct predictions as [| p rest]; [contradiction |].
    exact (Hlow _ _ p line Hocr (or_introl eq_refl) Hin).
  - intros old_text. vm_compute. reflexivity.
  - intros old_text. vm_compute. reflexivity.
  - intros old_text. vm_compute. reflexivity.
Qed.

(** C2 on concrete runs: two kept lines with whitespace around them,
    through the general statement, and a recognizer that is confident about
    no line. *)
Lemma extract_text_keeps_confident_lines_runs :
  (exists merged : str,
     trimmed (lit "  Hello wide world " ++ [0x0A]%N) merged /\
     result (extract_text_from_region (surya (Return padded_lines) (Return []))
               loaded image_100x100 (10, 10, 50, 40) (lit "He1lo") tt)
     = Return (match merged with [] => lit "He1lo" | _ :: _ => merged end))
  /\
  result (extract_text_from_region (surya (Return faint_lines) (Return []))
            loaded image_100x100 (10, 10, 50, 40) (lit "l1 O0") tt)
  = Return (lit "l1 O0")
  /\
  result (extract_text_from_region (surya (Return padded_lines) (Return []))
            loaded image_100x100 (10, 10, 50, 40) (lit "He1lo") tt)
  = Return (lit "Hello wide world").
Proof.
  split; [| split].
  - exact (proj1 extract_text_keeps_confident_lines
             (surya (Return padded_lines) (Return [])) loaded image_100x100
             (10, 10, 50, 40) (lit "He1lo")
             {| PIL.width := 44; PIL.height := 34; PIL.pixels := 7 |}
             {| PIL.width := 132; PIL.height := 102; PIL.pixels := 0 |}
             {| PIL.width := 132; PIL.height := 102; PIL.pixels := 7 |}
             padded_lines eq_refl eq_refl eq_refl eq_refl eq_refl).
  - apply (proj1 (proj2 extract_text_keeps_confident_lines)).
    intros images predictions p line [= <-] [<- | []] [<- | [<- | []]];
      vm_compute; reflexivity.
  - exact (proj1 (proj2 (proj2 (proj2 extract_text_keeps_confident_lines)))
             (lit "He1lo")).
Defined.

(** C3. [extract_text_from_region] returns a string in every world, for
    every image, region and [old_text].  The string is [old_text] when the
    models are not loaded and when anything in the body raises; otherwise
    it is [old_text] or the merged text, and then the merged text is not
    empty.  So an empty result means that [old_text] was empty. *)
Theorem extract_text_never_raises
    (w : world) (self : OCREnhancer) (image : PIL.Image) (bbox : box) (old_text : str) :
  exists s : str,
    result (extract_text_from_region w self image bbox old_text tt) = Return s /\
    (_models_loaded self = false -> s = old_text) /\
    (forall e, result (extract_body w image bbox old_text tt) = Raise e -> s = old_text) /\
    (s = old_text \/
     exists cropped background pasted predictions,
       crop w image (crop_box image bbox) = Return cropped /\
       new w (lit "RGB") (PIL.width cropped * 3, PIL.height cropped * 3) (255, 255, 255)
         = Return background /\
       paste w background cropped
         ((PIL.width cropped * 3 - PIL.width cropped) / 2,
          (PIL.height cropped * 3 - PIL.height cropped) / 2) = Return pasted /\
       recognition_predictor w [pasted] = Return predictions /\
       s = strip (join (lit " ") (collect_lines (lines_of predictions))) /\
       s <> []) /\
    (s = [] -> old_text = []).
Proof.
  destruct (extract_text_cases w self image bbox old_text)
    as [Hold | (cropped & background & pasted & predictions
                & Hloaded & Hcrop & Hnew & Hpaste & Hocr & Hmerged & Hres)].
  - exists old_text. repeat split; auto.
  - cbv zeta in Hmerged, Hres.
    eexists. split; [exact Hres |]. repeat apply conj.
    + rewrite Hloaded. discriminate.
    + intros e He. exfalso. revert He.
      unfold extract_body, bind, call, ret, scale_w, scale_h.
      cbn. rewrite Hcrop. cbn. rewrite Hnew. cbn. rewrite Hpaste. cbn.
      rewrite Hocr. cbn. discriminate.
    + right. exists cropped, background, pasted, predictions.
      repeat (split; [assumption |]). split; [reflexivity |].
      intros Hnil. rewrite Hnil in Hmerged. discriminate.
    + intros Hnil. rewrite Hnil in Hmerged. discriminate.
Qed.

(** C3 on a region that lies outside the image: Pillow refuses the box,
    the error is logged and [old_text] comes back. *)
Lemma extract_text_never_raises_outside_region :
  exists s,
    extract_text_from_region (surya (Return hello_xx) (Return [])) loaded
      image_100x100 (200, 200, 250, 240) (lit "old") tt
    = Run [Crop image_100x100 (198, 198, 100, 100);
           LogError (lit "Error in OCR enhancement: Coordinate 'right' is less than 'left'")]
          tt (Return s) /\
    s = lit "old".
Proof.
  destruct (extract_text_never_raises (surya (Return hello_xx) (Return [])) loaded
              image_100x100 (200, 200, 250, 240) (lit "old"))
    as (s & Hres & _ & Hraise & _).
  exists s.
  assert (Hs : s = lit "old")
    by (apply (Hraise (ValueError (lit "Coordinate 'right' is less than 'left'")));
        vm_compute; reflexivity).
  split; [| exact Hs]. rewrite Hs. vm_compute. reflexivity.
Defined.

(** C8. With the models loaded, the first thing [extract_text_from_region]
    does is crop the image to the region padded by 2 pixels and cut at the
    image: (max(x1-2,0), max(y1-2,0), min(x2+2,width), min(y2+2,height)).
    When the crop returns, the next call allocates a white RGB canvas of 3
    times the width and 3 times the height of the crop; when that returns,
    the crop is pasted on it at ((bg_w - w) // 2, (bg_h - h) // 2).  The crop
    rectangle depends on the region and the size of the image only, and the
    canvas and the paste position on the size of the crop only. *)
Theorem crop_and_canvas_geometry
    (w : world) (self : OCREnhancer) (image : PIL.Image)
    (x1 y1 x2 y2 : Z) (old_text : str) :
  _models_loaded self = true ->
  let crop_rectangle :=
    (Z.max (x1 - 2) 0, Z.max (y1 - 2) 0,
     Z.min (x2 + 2) (PIL.width image), Z.min (y2 + 2) (PIL.height image)) in
  let calls := trace (extract_text_from_region w self image (x1, y1, x2, y2) old_text tt) in
  crop_box image (x1, y1, x2, y2) = crop_rectangle /\
  calls !! 0%nat = Some (Crop image crop_rectangle) /\
  (forall cropped, crop w image crop_rectangle = Return cropped ->
     let bg_w := 3 * PIL.width cropped in
     let bg_h := 3 * PIL.height cropped in
     calls !! 1%nat = Some (New (lit "RGB") (bg_w, bg_h) (255, 255, 255)) /\
     forall background,
       new w (lit "RGB") (bg_w, bg_h) (255, 255, 255) = Return background ->
       calls !! 2%nat
       = Some (Paste background cropped
                 ((bg_w - PIL.width cropped) / 2, (bg_h - PIL.height cropped) / 2))) /\
  (forall image', PIL.width image' = PIL.width image ->
                  PIL.height image' = PIL.height image ->
                  crop_box image' (x1, y1, x2, y2) = crop_rectangle).
Proof.
  intros Hloaded crop_rectangle calls.
  assert (Hbox : crop_box image (x1, y1, x2, y2) = crop_rectangle) by reflexivity.
  split; [exact Hbox |].
  subst calls. unfold extract_text_from_region, extract_body, try_except, bind, call,
    ret, scale_w, scale_h.
  rewrite Hloaded, Hbox. cbn.
  split; [| split].
  - destruct (crop w image crop_rectangle); cbn; [reflexivity |].
    repeat (outcomes; try reflexivity).
  - intros cropped Hcrop. rewrite Hcrop. cbn.
    rewrite !(Z.mul_comm 3).
    split.
    + repeat (outcomes; try reflexivity).
    + intros background Hnew. rewrite Hnew. cbn.
      repeat (outcomes; try reflexivity).
  - intros image' Hw Hh. unfold crop_box, crop_rectangle, thr. now rewrite Hw, Hh.
Qed.

(** C8 on scenario C: the region (10,10,50,40) of a 100x100 image is
    cropped at (8,8,52,42), the canvas is 132x102 and the 44x34 crop is
    pasted at (44,34). *)
Lemma crop_and_canvas_geometry_scenario_C :
  let calls :=
    trace (extract_text_from_region (surya (Return hello_xx) (Return [])) loaded
             image_100x100 (10, 10, 50, 40) (lit "old") tt) in
  let cropped := {| PIL.width := 44; PIL.height := 34; PIL.pixels := 7 |} in
  let canvas := {| PIL.width := 132; PIL.height := 102; PIL.pixels := 0 |} in
  calls !! 0%nat = Some (Crop image_100x100 (8, 8, 52, 42)) /\
  calls !! 1%nat = Some (New (lit "RGB") (132, 102) (255, 255, 255)) /\
  calls !! 2%nat = Some (Paste canvas cropped (44, 34)).
Proof.
  pose proof (crop_and_canvas_geometry (surya (Return hello_xx) (Return [])) loaded
                image_100x100 10 10 50 40 (lit "old") eq_refl)
    as (_ & Hcrop & Hcanvas & _).
  cbv zeta.
  destruct (Hcanvas {| PIL.width := 44; PIL.height := 34; PIL.pixels := 7 |} eq_refl)
    as (Hnew & Hpaste).
  split; [exact Hcrop |]. split; [exact Hnew |].
  exact (Hpaste {| PIL.width := 132; PIL.height := 102; PIL.pixels := 0 |} eq_refl).
Defined.

(** *** [enhance_table_structure] *)

Section TableLoop.

Variable w : world.
Variable d : gmap (Z * Z) SuryaCell.t.
Variable table_bbox : box.
Variable page_dim : Z * Z.
Variables pdf_w pdf_h : float.

Let turn := enhance_cell w d table_bbox page_dim pdf_w pdf_h.
Let refine := refined w d table_bbox page_dim pdf_w pdf_h.
Let fails := conversion_fails w d table_bbox page_dim pdf_w pdf_h.

(** One turn of the loop, on the cell that follows [before]. *)
Lemma enhance_cell_run before cell after :
  final (turn (length before) (before ++ cell :: after))
  = before ++ refine cell :: after /\
  if fails cell
  then refine cell = cell /\
       exists e, result (turn (length before) (before ++ cell :: after)) = Raise e
  else result (turn (length before) (before ++ cell :: after)) = Return tt.
Proof.
  subst turn refine fails.
  unfold enhance_cell, update_cell_bbox, refined, conversion_fails, cell_key,
    bind, call, get, put, ret.
  rewrite list_lookup_middle by reflexivity.
  destruct (d !! _) as [surya_cell |]; cbn; [| split; reflexivity].
  rewrite list_lookup_middle by reflexivity.
  destruct (to_native_bbox w cell surya_cell table_bbox page_dim pdf_w pdf_h)
    as [e | bb]; cbn.
  - split; [reflexivity |]. split; [reflexivity |]. now exists e.
  - split; [| reflexivity].
    rewrite insert_app_r_alt by reflexivity.
    now rewrite Nat.sub_diag.
Qed.

(** The loop rewrites the cells in order and stops at the first cell whose
    conversion raises: a prefix of [k] cells is refined, the rest is as it
    was. *)
Lemma loop_run todo : forall before,
  let r := for_each (seq (length before) (length todo)) turn (before ++ todo) in
  exists k : nat,
    (k <= length todo)%nat /\
    final r = before ++ map refine (take k todo) ++ drop k todo /\
    (forall cell, In cell (take k todo) -> fails cell = false) /\
    match result r with
    | Return _ => k = length todo
    | Raise _ => exists cell, todo !! k = Some cell /\ fails cell = true
    end.
Proof.
  induction todo as [| cell rest IH]; intros before; cbn zeta.
  - exists 0%nat. cbn. repeat split; [reflexivity | contradiction].
  - cbn [length seq for_each].
    destruct (enhance_cell_run before cell rest) as [Hfinal Hresult].
    destruct (fails cell) eqn:Hfails.
    + destruct Hresult as [Hsame [e He]].
      rewrite (bind_raise _ _ _ _ He). cbn [final result].
      exists 0%nat. rewrite Hfinal, Hsame. cbn.
      repeat split; [lia | contradiction | now exists cell].
    + rewrite (bind_return _ _ _ _ Hresult). cbn [final result].
      rewrite Hfinal.
      specialize (IH (before ++ [refine cell])).
      rewrite length_app, Nat.add_1_r, <- app_assoc in IH. cbn in IH.
      destruct IH as (k & Hk & Hfin & Hok & Hres).
      exists (S k). cbn [take drop map length].
      split; [lia |]. split; [now rewrite Hfin, <- app_assoc |].
      split.
      * intros c [<- | Hin]; [exact Hfails | now apply Hok].
      * destruct (result _); [exact Hres | now f_equal].
Qed.

End TableLoop.

(** A key of the dict is the key of a cell of the model. *)
Lemma surya_cell_dict_from (model_cells : list SuryaCell.t) :
  forall (d0 : gmap (Z * Z) SuryaCell.t) key surya_cell,
    fold_left
      (fun d cell => <[(SuryaCell.row_id cell, SuryaCell.col_id cell) := cell]> d)
      model_cells d0 !! key = Some surya_cell ->
    d0 !! key = Some surya_cell \/
    (In surya_cell model_cells /\
     (SuryaCell.row_id surya_cell, SuryaCell.col_id surya_cell) = key).
Proof.
  induction model_cells as [| c rest IH]; intros d0 key sc; cbn; [now left |].
  intros H. destruct (IH _ _ _ H) as [Hhere | [Hin Hkey]].
  - destruct (decide ((SuryaCell.row_id c, SuryaCell.col_id c) = key)) as [<- | Hne].
    + rewrite lookup_insert_eq in Hhere. injection Hhere as <-.
      right. split; [now left | reflexivity].
    + rewrite lookup_insert_ne in Hhere by exact Hne. now left.
  - right. split; [now right | exact Hkey].
Qed.

Lemma surya_cell_dict_lookup model_cells key surya_cell :
  surya_cell_dict model_cells !! key = Some surya_cell ->
  In surya_cell model_cells /\
  (SuryaCell.row_id surya_cell, SuryaCell.col_id surya_cell) = key.
Proof.
  intros H. destruct (surya_cell_dict_from _ _ _ _ H) as [Hempty | Hin];
    [| exact Hin].
  rewrite lookup_empty in Hempty. discriminate.
Qed.

(** A refined cell is the cell itself or the cell with a new bbox, and then
    the model has a cell under its key. *)
Lemma refined_cases w d table_bbox page_dim pdf_w pdf_h cell :
  refined w d table_bbox page_dim pdf_w pdf_h cell = cell \/
  exists surya_cell bb,
    d !! cell_key cell = Some surya_cell /\
    refined w d table_bbox page_dim pdf_w pdf_h cell = TableCell.set_bbox cell bb.
Proof.
  unfold refined. destruct (d !! cell_key cell) as [sc |]; [| now left].
  destruct (to_native_bbox _ _ _ _ _ _ _) as [e | bb]; [now left |].
  right. now exists sc, bb.
Qed.

(** Reading a list whose first [k] elements went through [f]. *)
Lemma lookup_prefix_map {A} (f : A -> A) (xs : list A) :
  forall (k i : nat) (x : A),
    xs !! i = Some x ->
    (map f (take k xs) ++ drop k xs) !! i = Some (if decide (i < k)%nat then f x else x).
Proof.
  induction xs as [| y ys IH]; intros k i x; [discriminate |].
  destruct k as [| k]; [intros H; exact H |].
  destruct i as [| i].
  - intros [= <-]. reflexivity.
  - intros H.
    change ((map f (take k ys) ++ drop k ys) !! i
            = Some (if decide (S i < S k)%nat then f x else x)).
    rewrite (IH k i x H).
    destruct (decide (i < k)%nat), (decide (S i < S k)%nat); try reflexivity; lia.
Qed.

Lemma length_prefix_map {A} (f : A -> A) (xs : list A) (k : nat) :
  length (map f (take k xs) ++ drop k xs) = length xs.
Proof.
  rewrite length_app, length_map, length_take, length_drop. lia.
Qed.

(** Every run of [enhance_table_structure] returns.  Either it leaves the
    cells as they were, or the table predictor returned a table and a
    prefix of the cells was refined against it, up to the first cell whose
    conversion raised. *)
Lemma enhance_table_structure_run
    w self table_image page_dim table_bbox pdf_w pdf_h (table_cells : list TableCell.t) :
  let r := enhance_table_structure w self table_image page_dim table_bbox
             pdf_w pdf_h table_cells in
  result r = Return tt /\
  ((final r = table_cells /\
    (_models_loaded self = false \/
     (exists e, import_bbox_utils w = Raise e) \/
     (exists e, table_rec_predictor w [table_image] = Raise e) \/
     table_rec_predictor w [table_image] = Return []))
   \/
   exists surya_table rest k,
     _models_loaded self = true /\
     import_bbox_utils w = Return tt /\
     table_rec_predictor w [table_image] = Return (surya_table :: rest) /\
     let d := surya_cell_dict (cells surya_table) in
     (k <= length table_cells)%nat /\
     final r
     = map (refined w d table_bbox page_dim pdf_w pdf_h) (take k table_cells)
       ++ drop k table_cells /\
     (forall cell, In cell (take k table_cells) ->
        conversion_fails w d table_bbox page_dim pdf_w pdf_h cell = false) /\
     (k = length table_cells \/
      exists cell, table_cells !! k = Some cell /\
        conversion_fails w d table_bbox page_dim pdf_w pdf_h cell = true)).
Proof.
  cbv zeta. unfold enhance_table_structure.
  destruct (_models_loaded self) eqn:Hloaded; cbn [negb];
    [| split; [reflexivity | left; split; [reflexivity | now left]]].
  unfold try_except, enhance_body.
  destruct (import_bbox_utils w) as [e | []] eqn:Himport.
  { unfold bind, call. cbn.
    split; [reflexivity | left; split; [reflexivity |]]. right. left. now exists e. }
  destruct (table_rec_predictor w [table_image]) as [e | predictions] eqn:Htable.
  { unfold bind, call. cbn.
    split; [reflexivity | left; split; [reflexivity |]]. right. right. left. now exists e. }
  destruct predictions as [| surya_table rest].
  { unfold bind, call, ret. cbn.
    split; [reflexivity | left; split; [reflexivity |]]. now repeat right. }
  pose proof (loop_run w (surya_cell_dict (cells surya_table)) table_bbox page_dim
                pdf_w pdf_h table_cells []) as Hloop.
  cbn zeta in Hloop. cbn [length app] in Hloop.
  destruct Hloop as (k & Hk & Hfinal & Hok & Hres).
  unfold bind at 1 2. unfold call at 1 2. cbn.
  destruct (for_each _ _ table_cells) as [t cells' o]. cbn in Hfinal, Hres.
  destruct o as [e | []]; cbn.
  - split; [reflexivity | right].
    exists surya_table, rest, k. repeat (split; [first [assumption | reflexivity] |]).
    now right.
  - split; [reflexivity | right].
    exists surya_table, rest, k. repeat (split; [first [assumption | reflexivity] |]).
    now left.
Qed.

(** C6, as stated, fails.  The model knows both cells of the table but its
    box for the second is malformed: the conversion of the second cell
    raises, the error is swallowed, and the first cell keeps the bbox that
    was written before the error. *)
Lemma conversion_error_leaves_partial_update :
  let w := surya (Return []) (Return second_box_malformed) in
  let r := enhance_table_structure w loaded image_100x100 (100, 100)
             (0, 0, 100, 100) 612 792 two_cells in
  result r = Return tt /\
  (exists e,
     result (enhance_body w image_100x100 (100, 100) (0, 0, 100, 100) 612 792 two_cells)
     = Raise e) /\
  exists cell cell',
    two_cells !! 0%nat = Some cell /\
    final r !! 0%nat = Some cell' /\
    TableCell.bbox cell' <> TableCell.bbox cell.
Proof.
  cbv zeta. split; [vm_compute; reflexivity |].
  split; [eexists; vm_compute; reflexivity |].
  exists {| TableCell.start_row_offset_idx := 0;
            TableCell.start_col_offset_idx := 0;
            TableCell.bbox := unit_box;
            TableCell.text := lit "name" |},
         {| TableCell.start_row_offset_idx := 0;
            TableCell.start_col_offset_idx := 0;
            TableCell.bbox := {| l := 153; t := 198; r := 306; b := 396 |};
            TableCell.text := lit "name" |}.
  split; [reflexivity |]. split; [vm_compute; reflexivity |].
  cbn. intros H. apply (f_equal (fun bb => Prim2SF (l bb))) in H.
  vm_compute in H. discriminate H.
Qed.

(** C6, amended.  [enhance_table_structure] never raises.  When the models
    are not loaded, or the import of the converter or the call of the table
    predictor raises, every cell is as it was.  When the predictor returned
    a table, the cells are refined in order up to the first cell whose
    conversion raises: the cells before it keep their new bbox, that cell
    and the cells after it are as they were. *)
Theorem enhance_table_structure_stops_at_first_error
    (w : world) (self : OCREnhancer) (table_image : PIL.Image) (page_dim : Z * Z)
    (table_bbox : box) (pdf_w pdf_h : float) (table_cells : list TableCell.t) :
  let r := enhance_table_structure w self table_image page_dim table_bbox
             pdf_w pdf_h table_cells in
  result r = Return tt /\
  (_models_loaded self = false -> final r = table_cells) /\
  (forall e, import_bbox_utils w = Raise e -> final r = table_cells) /\
  (forall e, table_rec_predictor w [table_image] = Raise e -> final r = table_cells) /\
  (forall surya_table rest,
     _models_loaded self = true ->
     import_bbox_utils w = Return tt ->
     table_rec_predictor w [table_image] = Return (surya_table :: rest) ->
     let d := surya_cell_dict (cells surya_table) in
     exists k : nat,
       (k <= length table_cells)%nat /\
       final r
       = map (refined w d table_bbox page_dim pdf_w pdf_h) (take k table_cells)
         ++ drop k table_cells /\
       (forall cell, In cell (take k table_cells) ->
          conversion_fails w d table_bbox page_dim pdf_w pdf_h cell = false) /\
       (k = length table_cells \/
        exists cell, table_cells !! k = Some cell /\
          conversion_fails w d table_bbox page_dim pdf_w pdf_h cell = true)).
Proof.
  destruct (enhance_table_structure_run w self table_image page_dim table_bbox
              pdf_w pdf_h table_cells)
    as [Hres [[Hsame Hwhy] | (p & rest' & k & Hloaded & Himport & Htable & Hloop)]];
    cbv zeta; (split; [exact Hres |]).
  - repeat apply conj; try (intros; exact Hsame).
    intros surya_table rest Hloaded Himport Htable.
    destruct Hwhy as [H | [[e H] | [[e H] | H]]]; congruence.
  - repeat apply conj; try (intros; congruence).
    intros surya_table rest _ _ Htable'.
    assert (p = surya_table) as <- by congruence.
    exists k. exact Hloop.
Qed.

(** The amended C6 on the table whose second box is malformed: one cell is
    refined, the second is as it was. *)
Lemma enhance_table_structure_stops_at_first_error_runs :
  let w := surya (Return []) (Return second_box_malformed) in
  let r := enhance_table_structure w loaded image_100x100 (100, 100)
             (0, 0, 100, 100) 612 792 two_cells in
  result r = Return tt /\
  final r
  = map (refined w (surya_cell_dict (cells_of second_box_malformed))
           (0, 0, 100, 100) (100, 100) 612 792) (take 1 two_cells)
    ++ drop 1 two_cells.
Proof.
  pose proof (enhance_table_structure_stops_at_first_error
                (surya (Return []) (Return second_box_malformed)) loaded
                image_100x100 (100, 100) (0, 0, 100, 100) 612 792 two_cells)
    as (Hres & _ & _ & _ & Hloop).
  cbv zeta. split; [exact Hres |].
  destruct (Hloop _ [] eq_refl eq_refl eq_refl) as (k & Hk & Hfinal & Hok & Hlast).
  destruct k as [| [| [| k]]].
  - exfalso. destruct Hlast as [Hlen | (cell & Hcell & Hfails)];
      [discriminate Hlen |].
    injection Hcell as <-. vm_compute in Hfails. discriminate Hfails.
  - exact Hfinal.
  - exfalso. pose proof (Hok _ (or_intror (or_introl eq_refl))) as Hsecond.
    vm_compute in Hsecond. discriminate Hsecond.
  - exfalso. cbn in Hk. lia.
Defined.

(** C7. After [enhance_table_structure], in every world and whether or not
    an error occurred, the table has the cells it had, in the same order,
    each with its text and its row and column offsets.  A cell is either
    exactly as it was, or it is the cell with a new bbox and the model
    returned a cell with its row and column.  So a cell whose row and column
    match no cell of the model output is as it was. *)
Theorem unmatched_cells_are_untouched
    (w : world) (self : OCREnhancer) (table_image : PIL.Image) (page_dim : Z * Z)
    (table_bbox : box) (pdf_w pdf_h : float) (table_cells : list TableCell.t) :
  let r := enhance_table_structure w self table_image page_dim table_bbox
             pdf_w pdf_h table_cells in
  length (final r) = length table_cells /\
  forall (i : nat) (cell : TableCell.t),
    table_cells !! i = Some cell ->
    exists cell' : TableCell.t,
      final r !! i = Some cell' /\
      TableCell.text cell' = TableCell.text cell /\
      TableCell.start_row_offset_idx cell' = TableCell.start_row_offset_idx cell /\
      TableCell.start_col_offset_idx cell' = TableCell.start_col_offset_idx cell /\
      (cell' = cell \/
       exists surya_table rest surya_cell bb,
         table_rec_predictor w [table_image] = Return (surya_table :: rest) /\
         In surya_cell (cells surya_table) /\
         SuryaCell.row_id surya_cell = TableCell.start_row_offset_idx cell /\
         SuryaCell.col_id surya_cell = TableCell.start_col_offset_idx cell /\
         cell' = TableCell.set_bbox cell bb) /\
      ((forall surya_table rest surya_cell,
          table_rec_predictor w [table_image] = Return (surya_table :: rest) ->
          In surya_cell (cells surya_table) ->
          (SuryaCell.row_id surya_cell, SuryaCell.col_id surya_cell)
          <> (TableCell.start_row_offset_idx cell,
              TableCell.start_col_offset_idx cell)) ->
       cell' = cell).
Proof.
  destruct (enhance_table_structure_run w self table_image page_dim table_bbox
              pdf_w pdf_h table_cells)
    as [_ [[Hsame _] | (p & rest & k & _ & _ & Htable & Hloop)]]; cbv zeta.
  - rewrite Hsame. split; [reflexivity |].
    intros i cell Hcell. exists cell. repeat split; auto.
  - cbv zeta in Hloop. destruct Hloop as (_ & Hfinal & _).
    rewrite Hfinal. split; [apply length_prefix_map |].
    intros i cell Hcell. rewrite (lookup_prefix_map _ _ k i cell Hcell).
    destruct (decide (i < k)%nat) as [_ | _];
      [| exists cell; repeat split; auto].
    destruct (refined_cases w (surya_cell_dict (cells p)) table_bbox page_dim
                pdf_w pdf_h cell) as [-> | (sc & bb & Hlookup & ->)];
      [exists cell; repeat split; auto |].
    destruct (surya_cell_dict_lookup _ _ _ Hlookup) as [Hin Hkey].
    eexists. split; [reflexivity |]. repeat apply conj; try reflexivity.
    + right. exists p, rest, sc, bb.
      unfold cell_key in Hkey. injection Hkey as Hrow Hcol.
      repeat split; assumption.
    + intros Hunmatched. exfalso. exact (Hunmatched p rest sc Htable Hin Hkey).
Qed.

(** C7 on a table of which the model knows the first cell only: the second
    cell is the same after the call. *)
Lemma unmatched_cells_are_untouched_runs :
  let r := enhance_table_structure (surya (Return []) (Return first_cell_only))
             loaded image_100x100 (100, 100) (0, 0, 100, 100) 612 792 two_cells in
  length (final r) = 2%nat /\
  final r !! 1%nat = two_cells !! 1%nat.
Proof.
  pose proof (unmatched_cells_are_untouched
                (surya (Return []) (Return first_cell_only)) loaded
                image_100x100 (100, 100) (0, 0, 100, 100) 612 792 two_cells)
    as (Hlength & Hframe).
  cbv zeta. split; [exact Hlength |].
  destruct (Hframe 1%nat _ eq_refl) as (cell' & Hcell' & _ & _ & _ & _ & Hunmatched).
  rewrite Hcell'. cbn. f_equal. apply Hunmatched.
  intros surya_table rest surya_cell [= <- _] [<- | []]. cbn. discriminate.
Defined.

End OcrEnhancerProofs.

(** ** More on the picture annotation service *)

Module AnnotationServiceExtras.

Import Convert Models AnnotationService Fixtures AnnotationObservations FailureFixtures.

Ltac service_cases self :=
  unfold annotate_image, annotate_image_on, try_except, dispatch_on,
    _annotate_with_local_model,
    _annotate_with_runpod, _annotate_with_openai, first_choice_content,
    bind, call, get, ret, raise, eval;
  destruct self as [[k rp oa]]; cbn;
  destruct k; cbn; [ | destruct rp | destruct oa]; cbn; outcomes;
  try match goal with c : chat_completion |- _ => destruct c as [[|? ?]]; cbn end.

(** X1. Options that pass the validator of [PictureAnnotationOptions] carry
    the configuration of their kind, and constructing the service from them
    reads no environment variable, calls nothing and keeps the options as
    they are, whatever the environment holds. *)
Theorem validated_options_need_no_environment (w : world) (o : PictureAnnotationOptions.t) :
  PictureAnnotationOptions.validate_model_config o = Return o ->
  config_present o = true /\
  __init__ w (Some o) = ([], Return {| options := o |}).
Proof.
  destruct o as [k rp oa].
  unfold PictureAnnotationOptions.validate_model_config, config_present, __init__,
    _validate_configuration, bind, get, ret.
  destruct k, rp, oa; cbn; intros H; try discriminate H; split; reflexivity.
Qed.

(** X1 on OpenAI options with a key, in an empty environment. *)
Lemma validated_options_need_no_environment_runs :
  config_present openai_options = true /\
  __init__ (backend ∅ no_choice) (Some openai_options)
  = ([], Return {| options := openai_options |}).
Proof.
  apply (validated_options_need_no_environment (backend ∅ no_choice) openai_options).
  vm_compute. reflexivity.
Defined.

(** A service that was constructed carries the configuration of its kind. *)
Lemma constructed_service_is_configured (w : world)
    (opts : option PictureAnnotationOptions.t) (svc : PictureAnnotationService) :
  snd (__init__ w opts) = Return svc ->
  config_present (options svc) = true.
Proof.
  unfold __init__, _validate_configuration, set_runpod_config,
    set_openai_config, getenv, getenv_default, config_present,
    bind, call, get, put, ret, raise.
  destruct opts as [[k rp oa] |]; [| intros [= <-]; reflexivity].
  destruct k, rp, oa; cbn;
    repeat match goal with
           | |- context [truthy_opt ?x] => destruct (truthy_opt x); cbn
           end;
    intros H; try discriminate H; injection H as <-; reflexivity.
Qed.

(** X2. Validation is idempotent: on a service whose construction
    succeeded, in whatever environment, running [_validate_configuration]
    again returns without reading the environment and leaves the service as
    it is, in every environment (also one that lost the variables the
    construction read). *)
Theorem validation_is_idempotent (w : world) (opts : option PictureAnnotationOptions.t)
    (svc : PictureAnnotationService) :
  snd (__init__ w opts) = Return svc ->
  config_present (options svc) = true /\
  forall w' : world, _validate_configuration w' svc = Run [] svc (Return tt).
Proof.
  intros Hinit.
  pose proof (constructed_service_is_configured w opts svc Hinit) as Hpresent.
  split; [exact Hpresent |]. intros w'. revert Hpresent.
  unfold _validate_configuration, config_present, bind, get, ret.
  destruct svc as [[k rp oa]]; cbn.
  destruct k, rp, oa; cbn; intros H; try discriminate H; reflexivity.
Qed.

(** X2 on a RunPod service resolved from the environment: validating it
    again in an empty environment changes nothing. *)
Lemma validation_is_idempotent_runs :
  config_present (options {| options := runpod_options |}) = true /\
  forall w' : world,
    _validate_configuration w' {| options := runpod_options |}
    = Run [] {| options := runpod_options |} (Return tt).
Proof.
  apply (validation_is_idempotent (backend runpod_env no_choice)
           (Some runpod_unconfigured) {| options := runpod_options |}).
  vm_compute. reflexivity.
Defined.

(** X3. One call of [annotate_image] makes at most one chat-completion
    request and never reads the environment; a service of the local kind
    calls nothing at all. *)
Theorem at_most_one_backend_call (w : world) (self : PictureAnnotationService)
    (image : PIL.Image) :
  let calls := trace (annotate_image w image self) in
  (backend_call_count calls <= 1)%nat /\
  (forall name, ~ In (Getenv name) calls) /\
  (PictureAnnotationOptions.model_type (options self) = LOCAL -> calls = []).
Proof.
  cbv zeta. service_cases self;
    (split; [vm_compute; lia | split; [intros name Hin; cbn in Hin; intuition discriminate
                                     | intros; first [reflexivity | discriminate]]]).
Qed.

(** X4. On a service of an API kind whose construction succeeded, the
    first thing [annotate_image] does is encode the image as PNG: the
    branches that raise for a missing configuration are not taken. *)
Theorem constructed_service_reaches_encoding
    (w : world) (opts : option PictureAnnotationOptions.t)
    (svc : PictureAnnotationService) :
  snd (__init__ w opts) = Return svc ->
  PictureAnnotationOptions.model_type (options svc) <> LOCAL ->
  forall (w' : world) (image : PIL.Image),
  exists rest,
    trace (annotate_image w' image svc) = ImageSave image (lit "PNG") :: rest.
Proof.
  intros Hinit Hkind w' image.
  pose proof (constructed_service_is_configured w opts svc Hinit) as Hpresent.
  revert Hkind Hpresent. unfold config_present.
  service_cases svc; intros Hkind Hpresent;
    try discriminate Hpresent; try (now contradict Hkind); eexists; reflexivity.
Qed.

(** X4 on a RunPod service resolved from the environment. *)
Lemma constructed_service_reaches_encoding_runs :
  exists rest,
    trace (annotate_image broken_encoder image_100x100 {| options := runpod_options |})
    = ImageSave image_100x100 (lit "PNG") :: rest.
Proof.
  apply (constructed_service_reaches_encoding (backend runpod_env no_choice)
           (Some runpod_unconfigured) {| options := runpod_options |}).
  - vm_compute. reflexivity.
  - vm_compute. discriminate.
Defined.

(** X5. [annotate_image] logs an error exactly when the result carries
    one: a result with an error comes with one log record, the last event of
    the call, whose message ends with the error of the result; a result
    without an error comes with no log record. *)
Theorem failure_is_logged_exactly_once
    (w : world) (self : PictureAnnotationService) (image : PIL.Image)
    (res : AnnotationResult.t) :
  result (annotate_image w image self) = Return res ->
  match AnnotationResult.error res with
  | Some msg =>
    exists calls,
      trace (annotate_image w image self)
      = calls ++ [LogError (lit "Error during image annotation: " ++ msg)] /\
      forall m, ~ In (LogError m) calls
  | None => forall m, ~ In (LogError m) (trace (annotate_image w image self))
  end.
Proof.
  service_cases self; intros [= <-]; cbn;
    first
      [ intros m Hin; cbn in Hin; intuition discriminate
      | match goal with
        | |- exists calls, ?t = _ /\ _ =>
          exists (removelast t); split; [reflexivity |];
          intros m Hin; cbn in Hin; intuition discriminate
        end ].
Qed.

(** X5 when the image cannot be encoded. *)
Lemma failure_is_logged_exactly_once_runs :
  exists calls,
    trace (annotate_image broken_encoder image_100x100 {| options := openai_options |})
    = calls ++ [LogError (lit "Error during image annotation: "
                          ++ lit "cannot write mode P as PNG")] /\
    forall m, ~ In (LogError m) calls.
Proof.
  apply (failure_is_logged_exactly_once broken_encoder
           {| options := openai_options |} image_100x100
           (AnnotationResult.new_error [] (lit "openai")
              (lit "cannot write mode P as PNG"))).
  vm_compute. reflexivity.
Defined.



(** The first character of the provenance is that of the kind. *)
Lemma provenance_starts_like_the_kind w image self res :
  result (annotate_image w image self) = Return res ->
  hd_error (AnnotationResult.provenance res)
  = hd_error (value (PictureAnnotationOptions.model_type (options self))).
Proof.
  service_cases self; intros [= <-]; reflexivity.
Qed.

(** X7. The provenance of a result identifies the kind of the service
    that produced it: two results with the same provenance, from whatever
    services, images and worlds, successful or not, come from services of
    the same kind. *)
Theorem provenance_identifies_backend
    (w1 w2 : world) (image1 image2 : PIL.Image)
    (self1 self2 : PictureAnnotationService) (res1 res2 : AnnotationResult.t) :
  result (annotate_image w1 image1 self1) = Return res1 ->
  result (annotate_image w2 image2 self2) = Return res2 ->
  AnnotationResult.provenance res1 = AnnotationResult.provenance res2 ->
  PictureAnnotationOptions.model_type (options self1)
  = PictureAnnotationOptions.model_type (options self2).
Proof.
  intros H1 H2 Hsame.
  pose proof (provenance_starts_like_the_kind _ _ _ _ H1) as Hk1.
  pose proof (provenance_starts_like_the_kind _ _ _ _ H2) as Hk2.
  rewrite Hsame, Hk2 in Hk1.
  destruct (PictureAnnotationOptions.model_type (options self1)),
    (PictureAnnotationOptions.model_type (options self2));
    first [reflexivity | vm_compute in Hk1; discriminate Hk1].
Qed.

(** X7 on two failed OpenAI calls with the same provenance. *)
Lemma provenance_identifies_backend_runs :
  PictureAnnotationOptions.model_type (options {| options := openai_options |})
  = PictureAnnotationOptions.model_type (options {| options := openai_unconfigured |}).
Proof.
  apply (provenance_identifies_backend
           broken_encoder (backend ∅ no_choice) image_100x100 image_100x100
           {| options := openai_options |} {| options := openai_unconfigured |}
           (AnnotationResult.new_error [] (lit "openai")
              (lit "cannot write mode P as PNG"))
           (AnnotationResult.new_error [] (lit "openai")
              (lit "OpenAI configuration not available"))).
  - vm_compute. reflexivity.
  - vm_compute. reflexivity.
  - vm_compute. reflexivity.
Defined.



End AnnotationServiceExtras.

(** ** More on the OCR enhancer *)

Module OcrEnhancerExtras.
Import OcrEnhancer Fixtures OcrObservations FailureFixtures OcrEnhancerProofs.

(** X9. The enhancer reports its models as loaded exactly when Surya is
    installed and each of the three predictors was constructed.  Without
    Surya the constructor calls nothing; when the first predictor fails, it
    stops there and logs the failure, so the other two are never
    constructed. *)
Theorem enhancer_loads_iff_all_predictors_load (w : world) :
  (_models_loaded (snd (__init__ w)) = true <->
   SURYA_AVAILABLE w = true /\ RecognitionPredictor w = Return tt /\
   DetectionPredictor w = Return tt /\ TableRecPredictor w = Return tt)
  /\
  (SURYA_AVAILABLE w = false -> fst (__init__ w) = [])
  /\
  (forall e, SURYA_AVAILABLE w = true -> RecognitionPredictor w = Raise e ->
     fst (__init__ w)
     = [NewPredictor "RecognitionPredictor";
        LogError (lit "Failed to load Surya models: " ++ exc_msg e)]).
Proof.
  unfold __init__, try_except, bind, call, ret.
  destruct (SURYA_AVAILABLE w); cbn.
  - destruct (RecognitionPredictor w) as [e1 | []]; cbn;
      [| destruct (DetectionPredictor w) as [e2 | []]; cbn;
         [| destruct (TableRecPredictor w) as [e3 | []]; cbn]].
    all: split; [split; [intros H; try discriminate H; repeat split
                        | intros (_ & H1 & H2 & H3); try discriminate; reflexivity]
                |].
    all: split; [discriminate | intros e _ H; try discriminate H].
    injection H as <-. reflexivity.
  - split; [split; [discriminate | intros [H _]; discriminate H] |].
    split; [reflexivity | discriminate].
Qed.

(** X10. An enhancer constructed where Surya is missing or where a
    predictor failed to load is inert in every later world: text extraction
    returns the old text and table enhancement leaves the cells as they are,
    each after one warning and without a call to Pillow or Surya. *)
Theorem unavailable_enhancer_is_inert (w0 : world) :
  (SURYA_AVAILABLE w0 = false \/
   (exists e, RecognitionPredictor w0 = Raise e) \/
   (exists e, DetectionPredictor w0 = Raise e) \/
   (exists e, TableRecPredictor w0 = Raise e)) ->
  let self := snd (__init__ w0) in
  (forall w image bbox old_text,
     extract_text_from_region w self image bbox old_text tt
     = Run [LogWarning (lit "OCR models not available, returning original text")]
           tt (Return old_text))
  /\
  (forall w table_image page_dim table_bbox pdf_w pdf_h table_cells,
     enhance_table_structure w self table_image page_dim table_bbox pdf_w pdf_h table_cells
     = Run [LogWarning (lit "Table recognition models not available")]
           table_cells (Return tt)).
Proof.
  intros Hwhy self.
  assert (Hoff : _models_loaded self = false)
    by exact (models_not_loaded_when_unavailable w0 Hwhy).
  split; intros; unfold extract_text_from_region, enhance_table_structure;
    rewrite Hoff; reflexivity.
Qed.

(** X11. For a region that lies inside the image, the crop rectangle
    contains the region, lies inside the image, and exceeds the region by at
    most 2 pixels on each side. *)
Theorem crop_box_of_inner_region (image : PIL.Image) (x1 y1 x2 y2 : Z) :
  0 <= x1 <= x2 -> x2 <= PIL.width image ->
  0 <= y1 <= y2 -> y2 <= PIL.height image ->
  let '(lft, upper, rgt, lower) := crop_box image (x1, y1, x2, y2) in
  (0 <= lft <= x1 /\ x1 - lft <= 2) /\
  (x2 <= rgt <= PIL.width image /\ rgt - x2 <= 2) /\
  (0 <= upper <= y1 /\ y1 - upper <= 2) /\
  (y2 <= lower <= PIL.height image /\ lower - y2 <= 2).
Proof.
  intros Hx Hw Hy Hh. unfold crop_box, thr. lia.
Qed.

(** X12. The crop rectangle of a well-formed region is itself well
    formed (left not right of right, top not below bottom) exactly when the
    region starts at most 2 pixels past the right and the lower edge of the
    image and ends at most 2 pixels before its left and upper edge: for a
    region further outside, the rectangle handed to Pillow is inverted. *)
Theorem crop_box_well_formed_iff (image : PIL.Image) (x1 y1 x2 y2 : Z) :
  x1 <= x2 -> y1 <= y2 -> 0 <= PIL.width image -> 0 <= PIL.height image ->
  let '(lft, upper, rgt, lower) := crop_box image (x1, y1, x2, y2) in
  (lft <= rgt <-> x1 - 2 <= PIL.width image /\ -2 <= x2) /\
  (upper <= lower <-> y1 - 2 <= PIL.height image /\ -2 <= y2).
Proof.
  intros Hx Hy Hw Hh. unfold crop_box, thr. lia.
Qed.

Ltac region_cases self :=
  unfold extract_text_from_region, extract_body, try_except, bind, call, ret,
    scale_w, scale_h;
  destruct (_models_loaded self); cbn; outcomes.

Ltac pick_event H :=
  cbn in H;
  repeat match type of H with
         | _ \/ _ => destruct H as [H | H]
         | False => destruct H
         end;
  try discriminate H.

(** [(bg - n) // 2] for a canvas 3 times as large. *)
Lemma twice_halved (n : Z) : (n * 3 - n) / 2 = n.
Proof. replace (n * 3 - n) with (n * 2) by lia. apply Z.div_mul. lia. Qed.

(** X13. The recognizer is called at most once per region, in math mode
    and for the task ocr_with_boxes, and what it is given is exactly one
    image: the white canvas of 3 times the size of the crop on which the crop
    was pasted at (width, height) of the crop, that is in the middle ninth. *)
Theorem recognizer_sees_only_the_canvas
    (w : world) (self : OCREnhancer) (image : PIL.Image) (bbox : box) (old_text : str) :
  let calls := trace (extract_text_from_region w self image bbox old_text tt) in
  (length (filter (fun ev => is_recognize ev = true) calls) <= 1)%nat /\
  forall images math_mode task_names,
    In (Recognize images math_mode task_names) calls ->
    math_mode = true /\ task_names = [lit "ocr_with_boxes"] /\
    exists cropped background pasted,
      crop w image (crop_box image bbox) = Return cropped /\
      new w (lit "RGB") (3 * PIL.width cropped, 3 * PIL.height cropped) (255, 255, 255)
      = Return background /\
      paste w background cropped (PIL.width cropped, PIL.height cropped) = Return pasted /\
      images = [pasted].
Proof.
  cbv zeta. region_cases self;
    (split; [vm_compute; lia |]);
    intros images math_mode task_names Hin; pick_event Hin;
    injection Hin as <- <- <-;
    rewrite !twice_halved, !(Z.mul_comm _ 3) in *;
    repeat split; eauto 10.
Qed.

(** X14. Whatever the world does, a text returned by
    [extract_text_from_region] that is not the old text is not empty and
    neither begins nor ends with whitespace. *)
Theorem correction_has_no_outer_whitespace
    (w : world) (self : OCREnhancer) (image : PIL.Image) (bbox : box)
    (old_text s : str) :
  result (extract_text_from_region w self image bbox old_text tt) = Return s ->
  s <> old_text ->
  (exists c rest, s = c :: rest /\ isspace c = false) /\
  (exists front c, s = front ++ [c] /\ isspace c = false).
Proof.
  intros Hres Hnew.
  destruct (extract_text_cases w self image bbox old_text)
    as [Hold | (cropped & background & pasted & predictions
                & _ & _ & _ & _ & _ & Hmerged & Hres')].
  - rewrite Hold in Hres. injection Hres as <-. now contradict Hnew.
  - cbv zeta in Hmerged, Hres'. rewrite Hres' in Hres. injection Hres as <-.
    destruct (strip_has_no_outer_whitespace
                (join (lit " ") (collect_lines (lines_of predictions))))
      as [Hnil | Hshape]; [| exact Hshape].
    rewrite Hnil in Hmerged. discriminate Hmerged.
Qed.

(** *** [surya_cell_dict] *)

(** X15. When the model returns several cells with the same row and
    column, the dictionary built from them holds the last one: a lookup
    finds the first cell with that key in the reversed list. *)
Theorem surya_cell_dict_last_wins (model_cells : list SuryaCell.t) (key : Z * Z) :
  surya_cell_dict model_cells !! key
  = List.find
      (fun cell => bool_decide ((SuryaCell.row_id cell, SuryaCell.col_id cell) = key))
      (rev model_cells).
Proof.
  unfold surya_cell_dict.
  induction model_cells as [| cell front IH] using rev_ind; [apply lookup_empty |].
  rewrite fold_left_app, rev_app_distr. cbn.
  destruct (bool_decide_reflect ((SuryaCell.row_id cell, SuryaCell.col_id cell) = key))
    as [<- | Hne].
  - apply lookup_insert_eq.
  - rewrite lookup_insert_ne by exact Hne. exact IH.
Qed.

(** *** The calls of [enhance_table_structure] *)

(** X16. When the models are loaded, the table predictor answers and
    every conversion of a matched cell succeeds, the loop reaches the end:
    the table after the call is the table with every cell refined. *)
Theorem refinement_is_complete_without_failure
    (w : world) (self : OCREnhancer) (table_image : PIL.Image) (page_dim : Z * Z)
    (table_bbox : box) (pdf_w pdf_h : float) (table_cells : list TableCell.t)
    (surya_table : TableResult) (rest : list TableResult) :
  _models_loaded self = true ->
  import_bbox_utils w = Return tt ->
  table_rec_predictor w [table_image] = Return (surya_table :: rest) ->
  (forall cell surya_cell,
     In cell table_cells ->
     surya_cell_dict (cells surya_table) !! cell_key cell = Some surya_cell ->
     exists bb,
       to_native_bbox w cell surya_cell table_bbox page_dim pdf_w pdf_h = Return bb) ->
  final (enhance_table_structure w self table_image page_dim table_bbox
           pdf_w pdf_h table_cells)
  = map (refined w (surya_cell_dict (cells surya_table)) table_bbox page_dim pdf_w pdf_h)
        table_cells.
Proof.
  intros Hloaded Himport Htable Hconverts.
  destruct (enhance_table_structure_run w self table_image page_dim table_bbox
              pdf_w pdf_h table_cells)
    as [_ [[_ Hwhy] | (p & rest' & k & _ & _ & Htable' & Hloop)]].
  - destruct Hwhy as [H | [[e H] | [[e H] | H]]]; congruence.
  - assert (p = surya_table) as -> by congruence.
    cbv zeta in Hloop. destruct Hloop as (Hk & Hfinal & _ & [-> | Hfails]).
    + now rewrite Hfinal, firstn_all, skipn_all, app_nil_r.
    + exfalso. destruct Hfails as (cell & Hcell & Hfail).
      unfold conversion_fails in Hfail.
      destruct (surya_cell_dict (cells surya_table) !! cell_key cell)
        as [sc |] eqn:Hsc; [| discriminate Hfail].
      destruct (Hconverts cell sc) as [bb Hbb];
        [apply list_elem_of_In; now apply list_elem_of_lookup_2 with k | exact Hsc |].
      rewrite Hbb in Hfail. discriminate Hfail.
Qed.

Section TableCalls.

Variable w : world.
Variable d : gmap (Z * Z) SuryaCell.t.
Variable table_bbox : box.
Variable page_dim : Z * Z.
Variables pdf_w pdf_h : float.

(** The only call of a turn of the loop is the conversion of its cell
    against the cell of the model under the same key. *)
Lemma enhance_cell_calls before cell after ev :
  In ev (trace (enhance_cell w d table_bbox page_dim pdf_w pdf_h (length before)
                  (before ++ cell :: after))) ->
  exists surya_cell,
    ev = UpdateCellBbox (length before) surya_cell /\
    d !! cell_key cell = Some surya_cell.
Proof.
  unfold enhance_cell, update_cell_bbox, cell_key, bind, call, get, put, ret.
  rewrite list_lookup_middle by reflexivity.
  destruct (d !! _) as [surya_cell |]; cbn; [| contradiction].
  rewrite list_lookup_middle by reflexivity.
  destruct (to_native_bbox w cell surya_cell table_bbox page_dim pdf_w pdf_h);
    cbn; intros [<- | []]; now exists surya_cell.
Qed.

Lemma loop_calls todo : forall before ev,
  In ev (trace (for_each (seq (length before) (length todo))
                  (enhance_cell w d table_bbox page_dim pdf_w pdf_h)
                  (before ++ todo))) ->
  exists (j : nat) cell surya_cell,
    ev = UpdateCellBbox (length before + j) surya_cell /\
    todo !! j = Some cell /\
    d !! cell_key cell = Some surya_cell.
Proof.
  induction todo as [| cell rest IH]; intros before ev; [contradiction |].
  cbn [length seq for_each].
  pose proof (enhance_cell_run w d table_bbox page_dim pdf_w pdf_h before cell rest)
    as Hrun. cbv zeta in Hrun. destruct Hrun as [Hfinal Hresult].
  assert (Hhere : In ev (trace (enhance_cell w d table_bbox page_dim pdf_w pdf_h
                                  (length before) (before ++ cell :: rest))) ->
                  exists (j : nat) cell0 surya_cell,
                    ev = UpdateCellBbox (length before + j) surya_cell /\
                    (cell :: rest) !! j = Some cell0 /\
                    d !! cell_key cell0 = Some surya_cell).
  { intros Hin. destruct (enhance_cell_calls _ _ _ _ Hin) as (sc & -> & Hsc).
    exists 0%nat, cell, sc. now rewrite Nat.add_0_r. }
  destruct (conversion_fails w d table_bbox page_dim pdf_w pdf_h cell).
  - destruct Hresult as [_ [e He]]. rewrite (bind_raise _ _ _ _ He). exact Hhere.
  - rewrite (bind_return _ _ _ _ Hresult). cbn [trace]. rewrite Hfinal.
    intros Hin. apply in_app_or in Hin. destruct Hin as [Hin | Hin]; [now apply Hhere |].
    specialize (IH (before ++ [refined w d table_bbox page_dim pdf_w pdf_h cell]) ev).
    rewrite length_app, Nat.add_1_r, <- app_assoc in IH.
    destruct (IH Hin) as (j & cell0 & sc & -> & Hcell0 & Hsc).
    exists (S j), cell0, sc. repeat split; [f_equal; lia | exact Hcell0 | exact Hsc].
Qed.

End TableCalls.

(** A trace without a call of the table predictor. *)
Lemma no_table_rec_among (calls : list event) :
  (forall ev, In ev calls -> is_table_rec ev = false) ->
  filter (fun ev => is_table_rec ev = true) calls = [].
Proof.
  induction calls as [| ev rest IH]; intros Hnone; [reflexivity |].
  rewrite filter_cons, (Hnone ev (or_introl eq_refl)).
  destruct (decide (false = true)) as [H | _]; [discriminate H |].
  apply IH. intros ev' Hin. apply Hnone. now right.
Qed.

(** X17. [enhance_table_structure] calls the table predictor at most
    once, on the list that holds the table image only; every conversion it
    calls is for an index of the table, against the model's cell stored
    under the row and column of the cell at that index, of the first table
    the predictor returned. *)
Theorem table_predictor_and_converter_calls
    (w : world) (self : OCREnhancer) (table_image : PIL.Image) (page_dim : Z * Z)
    (table_bbox : box) (pdf_w pdf_h : float) (table_cells : list TableCell.t) :
  let calls := trace (enhance_table_structure w self table_image page_dim table_bbox
                        pdf_w pdf_h table_cells) in
  (length (filter (fun ev => is_table_rec ev = true) calls) <= 1)%nat /\
  (forall images, In (TableRec images) calls -> images = [table_image]) /\
  (forall index surya_cell,
     In (UpdateCellBbox index surya_cell) calls ->
     exists surya_table rest cell,
       table_rec_predictor w [table_image] = Return (surya_table :: rest) /\
       table_cells !! index = Some cell /\
       surya_cell_dict (cells surya_table) !! cell_key cell = Some surya_cell).
Proof.
  cbv zeta. unfold enhance_table_structure.
  destruct (_models_loaded self); cbn [negb].
  2: { unfold call. cbn [trace]. split; [vm_compute; lia |].
       split; intros; pick_event H. }
  unfold try_except, enhance_body.
  destruct (import_bbox_utils w) as [e | []] eqn:Himport.
  { unfold bind, call. cbn. split; [vm_compute; lia |].
    split; intros; pick_event H. }
  destruct (table_rec_predictor w [table_image]) as [e | predictions] eqn:Htable.
  { unfold bind, call. cbn. split; [vm_compute; lia |].
    split; intros; pick_event H. now injection H. }
  destruct predictions as [| surya_table rest].
  { unfold bind, call, ret. cbn. split; [vm_compute; lia |].
    split; intros; pick_event H. now injection H. }
  pose proof (loop_calls w (surya_cell_dict (cells surya_table)) table_bbox page_dim
                pdf_w pdf_h table_cells []) as Hloop.
  cbn [length app] in Hloop.
  unfold bind at 1 2. unfold call at 1 2. cbn.
  destruct (for_each _ _ table_cells) as [t cells' o]. cbn [trace] in Hloop.
  assert (Hnone : forall ev, In ev t -> is_table_rec ev = false).
  { intros ev Hin. destruct (Hloop ev Hin) as (j & cell & sc & -> & _). reflexivity. }
  assert (Hupdate : forall index surya_cell,
             In (UpdateCellBbox index surya_cell) t ->
             exists surya_table0 rest0 cell,
               Return (surya_table :: rest) = Return (surya_table0 :: rest0) /\
               table_cells !! index = Some cell /\
               surya_cell_dict (cells surya_table0) !! cell_key cell = Some surya_cell).
  { intros index sc Hin. destruct (Hloop _ Hin) as (j & cell & sc' & [= -> ->] & Hcell & Hsc).
    now exists surya_table, rest, cell. }
  assert (Hcount : forall tail,
             (forall ev, In ev tail -> is_table_rec ev = false) ->
             (length (filter (fun ev => is_table_rec ev = true)
                        (ImportBboxUtils :: TableRec [table_image] :: tail)) <= 1)%nat).
  { intros tail Htail.
    rewrite filter_cons_False by (cbn; discriminate).
    rewrite filter_cons_True by reflexivity.
    rewrite (no_table_rec_among tail Htail). cbn. lia. }
  destruct o as [e | []]; cbn [trace].
  - split; [| split].
    + apply Hcount. intros ev Hin. apply in_app_or in Hin.
      destruct Hin as [Hin | [<- | []]]; [now apply Hnone | reflexivity].
    + intros images [H | [H | Hin]]; [discriminate H | now injection H |].
      apply in_app_or in Hin. destruct Hin as [Hin | [H | []]]; [| discriminate H].
      now specialize (Hnone _ Hin).
    + intros index sc [H | [H | Hin]]; try discriminate H.
      apply in_app_or in Hin. destruct Hin as [Hin | [H | []]]; [| discriminate H].
      now apply Hupdate.
  - split; [| split].
    + now apply Hcount.
    + intros images [H | [H | Hin]]; [discriminate H | now injection H |].
      now specialize (Hnone _ Hin).
    + intros index sc [H | [H | Hin]]; try discriminate H. now apply Hupdate.
Qed.


(** X10 on an enhancer constructed without Surya, used where Surya answers. *)
Lemma unavailable_enhancer_is_inert_runs :
  let self := snd (__init__ no_surya) in
  extract_text_from_region (surya (Return hello_xx) (Return first_cell_only)) self
    image_100x100 (10, 10, 50, 40) (lit "old") tt
  = Run [LogWarning (lit "OCR models not available, returning original text")]
        tt (Return (lit "old")) /\
  enhance_table_structure (surya (Return hello_xx) (Return first_cell_only)) self
    image_100x100 (100, 100) (0, 0, 100, 100) 612 792 two_cells
  = Run [LogWarning (lit "Table recognition models not available")]
        two_cells (Return tt).
Proof.
  destruct (unavailable_enhancer_is_inert no_surya (or_introl eq_refl))
    as [Htext Htable].
  cbv zeta. split; [apply Htext | apply Htable].
Defined.

(** X11 on a region that touches the border of the image. *)
Lemma crop_box_of_inner_region_at_the_border :
  crop_box image_100x100 (1, 0, 99, 100) = (0, 0, 100, 100) /\
  (0 <= 0 <= 1 /\ 1 - 0 <= 2) /\
  (99 <= 100 <= PIL.width image_100x100 /\ 100 - 99 <= 2) /\
  (0 <= 0 <= 0 /\ 0 - 0 <= 2) /\
  (100 <= 100 <= PIL.height image_100x100 /\ 100 - 100 <= 2).
Proof.
  split; [reflexivity |].
  refine (crop_box_of_inner_region image_100x100 1 0 99 100 _ _ _ _); cbn; lia.
Defined.

(** X12 on a region to the right of the image: the rectangle is inverted. *)
Lemma crop_box_well_formed_iff_outside :
  crop_box image_100x100 (200, 10, 250, 40) = (198, 8, 100, 42) /\
  (198 <= 100 <-> 200 - 2 <= PIL.width image_100x100 /\ -2 <= 250) /\
  (8 <= 42 <-> 10 - 2 <= PIL.height image_100x100 /\ -2 <= 40).
Proof.
  split; [reflexivity |].
  refine (crop_box_well_formed_iff image_100x100 200 10 250 40 _ _ _ _); cbn; lia.
Defined.

(** X14 on lines recognized with whitespace around them. *)
Lemma correction_has_no_outer_whitespace_runs :
  (exists c rest, lit "Hello wide world" = c :: rest /\ isspace c = false) /\
  (exists front c, lit "Hello wide world" = front ++ [c] /\ isspace c = false).
Proof.
  apply (correction_has_no_outer_whitespace
           (surya (Return padded_lines) (Return [])) loaded image_100x100
           (10, 10, 50, 40) (lit "old") (lit "Hello wide world")).
  - vm_compute. reflexivity.
  - intros Hsame. vm_compute in Hsame. discriminate Hsame.
Defined.

(** X16 on a table of which the model knows the first cell. *)
Lemma refinement_is_complete_without_failure_runs :
  final (enhance_table_structure (surya (Return []) (Return first_cell_only))
           loaded image_100x100 (100, 100) (0, 0, 100, 100) 612 792 two_cells)
  = map (refined (surya (Return []) (Return first_cell_only))
           (surya_cell_dict (cells_of first_cell_only)) (0, 0, 100, 100) (100, 100)
           612 792)
        two_cells.
Proof.
  apply (refinement_is_complete_without_failure
           (surya (Return []) (Return first_cell_only)) loaded image_100x100
           (100, 100) (0, 0, 100, 100) 612 792 two_cells
           {| cells := cells_of first_cell_only |} []).
  - reflexivity.
  - reflexivity.
  - reflexivity.
  - intros cell surya_cell [<- | [<- | []]] Hfound; vm_compute in Hfound;
      [| discriminate Hfound].
    injection Hfound as <-. eexists. vm_compute. reflexivity.
Defined.

End OcrEnhancerExtras.
